(** * flaskext.mongoengine.wtf.orm: form fields generated from document schemas

    A shallow embedding of [src/flaskext/mongoengine/wtf/orm.py].

    The module is dynamically typed glue between two external libraries
    (mongoengine schemas in, WTForms field descriptors out).  Python values
    are embedded as the inductive [value]; keyword-argument dictionaries are
    finite maps from strings to values; exceptions are explicit results.
    Objects built by the external libraries (validators, unbound form
    fields) are kept symbolically as the constructor call that built them.

    Lists are values here: [kwargs['validators'].append(v)] returns the
    dictionary with the longer list, which is what the produced form field
    sees; that the append also lengthens a list object the caller passed in
    [field_args] is outside the model.  Schemas are finite trees (a list
    field holds its element field, an embedded-document field holds the
    embedded schema), so [convert] and [model_fields] are structurally
    recursive and total. *)

From stdpp Require Import gmap strings list fin_maps.
From Stdlib Require Import ZArith Lia.

Set Warnings "-register-all".

Local Open Scope string_scope.
Local Open Scope Z_scope.

(** ** Python values *)

Inductive value : Type :=
| VNone
| VBool (b : bool)
| VInt (z : Z)
| VStr (s : string)
| VList (l : list value)
| VTuple (l : list value)
| VClass (name : string)
    (* a class object of one of the collaborating libraries, by name *)
| VCall (cls : string) (args : list value) (kwargs : gmap string value)
    (* the object a call of class [cls] with these positional and keyword
       arguments returns: a validator instance, or the unbound form field
       WTForms hands out for a field class *)
| VType (name : string) (bases : list value) (attrs : gmap string value).
    (* the class returned by [type(name, bases, attrs)] *)

(** Truth value testing, as used by [if x:] and [x or y]. *)
Definition truthy (v : value) : bool :=
  match v with
  | VNone => false
  | VBool b => b
  | VInt z => negb (z =? 0)
  | VStr s => negb (String.eqb s "")
  | VList l | VTuple l => match l with [] => false | _ => true end
  | VClass _ | VCall _ _ _ | VType _ _ _ => true
  end.

(** Truth value of a dictionary: non-empty. *)
Definition dict_truthy {A : Type} (d : gmap string A) : bool :=
  negb (bool_decide (size d = 0%nat)).

(** [a or b] *)
Definition py_or (a b : value) : value := if truthy a then a else b.

(** [v == -1] *)
Definition eq_minus_one (v : value) : bool :=
  match v with
  | VInt z => z =? -1
  | _ => false
  end.

(** [v is not None] *)
Definition is_not_None (v : value) : bool :=
  match v with
  | VNone => false
  | _ => true
  end.

(** ** Exceptions *)

Inductive exn : Type :=
| TypeError (msg : string)
| AttributeError (msg : string)
| KeyError (key : string).

Inductive result (A : Type) : Type :=
| Ok (a : A)
| Raise (e : exn).
Arguments Ok {A} a.
Arguments Raise {A} e.

Definition bind {A B : Type} (r : result A) (k : A → result B) : result B :=
  match r with
  | Ok a => k a
  | Raise e => Raise e
  end.

Notation "x ←! r ; k" := (bind r (λ x, k))
  (at level 20, r at level 100, k at level 200, right associativity,
   format "'[' x  ←!  r ; '/' k ']'").

(** Keyword-argument dictionaries. *)
Abbreviation kwargs_t := (gmap string value).

(** Calling a class of the form library with positional arguments [args]
    and the dictionary [kwargs] unpacked as keyword arguments. *)
Definition call (cls : string) (args : list value) (kwargs : kwargs_t) : result value :=
  Ok (VCall cls args kwargs).

(** The same with one more explicit keyword [key=v] before the unpacked
    dictionary: Python refuses a keyword given twice. *)
Definition call_with (cls : string) (args : list value) (key : string) (v : value)
    (kwargs : kwargs_t) : result value :=
  match kwargs !! key with
  | Some _ => Raise (TypeError "got multiple values for keyword argument")
  | None => Ok (VCall cls args (<[key := v]> kwargs))
  end.

(** [kwargs['validators'].append(v)]: only a list has [append]. *)
Definition append_validator (kwargs : kwargs_t) (v : value) : result kwargs_t :=
  match kwargs !! "validators" with
  | Some (VList l) => Ok (<["validators" := VList (l ++ [v])]> kwargs)
  | Some _ => Raise (AttributeError "append")
  | None => Raise (KeyError "validators")
  end.

(** ** Schema side: field descriptors and document classes *)

(** The attributes [convert] and the [conv_*] methods read from a field
    descriptor.  An attribute a field class does not define reads [VNone].
    [to_form_field] is [Some hook] when [hasattr(field, 'to_form_field')];
    the hook is called with the owning schema (given by its name) and the
    keyword arguments. *)
Record field_attrs : Type := {
  type_name : string;          (* type(field).__name__ *)
  name : value;
  default_value : value;       (* field.default *)
  required : bool;
  choices : value;
  to_form_field : option (string → kwargs_t → result value);
  regex : value;
  max_length : value;
  min_length : value;
  max_value : value;
  min_value : value;
  max_bytes : value;
  document_type : value;
}.

Inductive mfield : Type :=
| Field (a : field_attrs)
        (field : option mfield)                 (* field.field *)
        (document_type_obj : option document)   (* field.document_type_obj *)
with document : Type :=
| Document (__name__ : string)
           (mro : list string)                  (* inspect.getmro(model), by name *)
           (_fields_order : option (list string))
           (_fields : gmap string mfield).

Definition attrs (field : mfield) : field_attrs :=
  match field with Field a _ _ => a end.

Definition inner_field (field : mfield) : option mfield :=
  match field with Field _ f _ => f end.

Definition document_type_obj (field : mfield) : option document :=
  match field with Field _ _ d => d end.

Definition __name__ (model : document) : string :=
  match model with Document n _ _ _ => n end.

Definition getmro (model : document) : list string :=
  match model with Document _ m _ _ => m end.

Definition _fields_order (model : document) : option (list string) :=
  match model with Document _ _ o _ => o end.

Definition _fields (model : document) : gmap string mfield :=
  match model with Document _ _ _ fs => fs end.

(** The class object itself, as a value. *)
Definition class_value (model : document) : value := VClass (__name__ model).

(** ** The converter registry *)

(** The methods of [ModelConverter] carrying a [_converter_for] tag. *)
Inductive method : Type :=
| conv_Binary_m | conv_Boolean_m | conv_DateTime_m | conv_Decimal_m
| conv_Dict_m | conv_Email_m | conv_EmbeddedDocument_m | conv_Float_m
| conv_GenericReference_m | conv_GeoLocation_m | conv_Int_m | conv_List_m
| conv_ObjectId_m | conv_Reference_m | conv_SortedList_m | conv_String_m
| conv_URL_m.

(** A function supplied by the caller: [(model, field, kwargs) -> field]. *)
Abbreviation callable := (document → mfield → kwargs_t → result value).

(** A registry entry: a bound method of the converter itself, or one of the
    caller's functions. *)
Inductive entry : Type :=
| Bound (m : method)
| Supplied (fn : callable).

(** [@converts(...)]: the tag set of each method (each a singleton). *)
Definition _converter_for (m : method) : list string :=
  match m with
  | conv_String_m => ["StringField"]
  | conv_URL_m => ["URLField"]
  | conv_Email_m => ["EmailField"]
  | conv_Int_m => ["IntField"]
  | conv_Float_m => ["FloatField"]
  | conv_Decimal_m => ["DecimalField"]
  | conv_Boolean_m => ["BooleanField"]
  | conv_DateTime_m => ["DateTimeField"]
  | conv_Binary_m => ["BinaryField"]
  | conv_Dict_m => ["DictField"]
  | conv_List_m => ["ListField"]
  | conv_SortedList_m => ["SortedListField"]
  | conv_GeoLocation_m => ["GeoLocationField"]
  | conv_ObjectId_m => ["ObjectIdField"]
  | conv_EmbeddedDocument_m => ["EmbeddedDocumentField"]
  | conv_Reference_m => ["ReferenceField"]
  | conv_GenericReference_m => ["GenericReferenceField"]
  end.

(** [dir(self)] restricted to the tagged methods, in its alphabetical order. *)
Definition dir_self : list method :=
  [ conv_Binary_m; conv_Boolean_m; conv_DateTime_m; conv_Decimal_m;
    conv_Dict_m; conv_Email_m; conv_EmbeddedDocument_m; conv_Float_m;
    conv_GenericReference_m; conv_GeoLocation_m; conv_Int_m; conv_List_m;
    conv_ObjectId_m; conv_Reference_m; conv_SortedList_m; conv_String_m;
    conv_URL_m ].

(** [for classname in obj._converter_for: converters[classname] = obj] *)
Definition register (converters : gmap string entry) (m : method)
    : gmap string entry :=
  foldl (λ acc classname, <[classname := Bound m]> acc) converters (_converter_for m).

(** [ModelConverter.__init__]: the registry stored in [self.converters]. *)
Definition ModelConverter (converters : option (gmap string callable))
    : gmap string entry :=
  let converters : gmap string entry :=
    match converters with
    | None => ∅
    | Some c => if dict_truthy c then Supplied <$> c else ∅
    end in
  foldl register converters dir_self.

(** ** Conversion methods that do not recurse *)

Section methods.
Context (model : document) (field : mfield).

Definition _string_common (kwargs : kwargs_t) : result kwargs_t :=
  if truthy (py_or (max_length (attrs field)) (min_length (attrs field))) then
    append_validator kwargs
      (VCall "Length" []
         {[ "max" := py_or (max_length (attrs field)) (VInt (-1));
            "min" := py_or (min_length (attrs field)) (VInt (-1)) ]})
  else Ok kwargs.

Definition _number_common (kwargs : kwargs_t) : result kwargs_t :=
  if truthy (py_or (max_value (attrs field)) (min_value (attrs field))) then
    append_validator kwargs
      (VCall "NumberRange" []
         {[ "max" := max_value (attrs field);
            "min" := min_value (attrs field) ]})
  else Ok kwargs.

Definition conv_String (kwargs : kwargs_t) : result value :=
  kwargs ←! (if truthy (regex (attrs field)) then
               append_validator kwargs
                 (VCall "Regexp" [] {[ "regex" := regex (attrs field) ]})
             else Ok kwargs);
  kwargs ←! _string_common kwargs;
  if eq_minus_one (max_length (attrs field)) then call "TextAreaField" [] kwargs
  else call "TextField" [] kwargs.

Definition conv_URL (kwargs : kwargs_t) : result value :=
  kwargs ←! append_validator kwargs (VCall "URL" [] ∅);
  kwargs ←! _string_common kwargs;
  call "TextField" [] kwargs.

Definition conv_Email (kwargs : kwargs_t) : result value :=
  kwargs ←! append_validator kwargs (VCall "Email" [] ∅);
  kwargs ←! _string_common kwargs;
  call "TextField" [] kwargs.

Definition conv_Int (kwargs : kwargs_t) : result value :=
  kwargs ←! _number_common kwargs;
  call "IntegerField" [] kwargs.

Definition conv_Float (kwargs : kwargs_t) : result value :=
  kwargs ←! _number_common kwargs;
  call "FloatField" [] kwargs.

Definition conv_Decimal (kwargs : kwargs_t) : result value :=
  kwargs ←! _number_common kwargs;
  call "DecimalField" [] kwargs.

Definition conv_Boolean (kwargs : kwargs_t) : result value :=
  call "BooleanField" [] kwargs.

Definition conv_DateTime (kwargs : kwargs_t) : result value :=
  call "DateTimeField" [] kwargs.

Definition conv_Binary (kwargs : kwargs_t) : result value :=
  kwargs ←! (if truthy (max_bytes (attrs field)) then
               append_validator kwargs
                 (VCall "Length" [] {[ "max" := max_bytes (attrs field) ]})
             else Ok kwargs);
  call "TextAreaField" [] kwargs.

Definition conv_Dict (kwargs : kwargs_t) : result value :=
  call "TextAreaField" [] kwargs.

Definition conv_GeoLocation (kwargs : kwargs_t) : result value := Ok VNone.

Definition conv_ObjectId (kwargs : kwargs_t) : result value := Ok VNone.

Definition conv_Reference (kwargs : kwargs_t) : result value :=
  call_with "ModelSelectField" [] "model" (document_type (attrs field)) kwargs.

Definition conv_GenericReference (kwargs : kwargs_t) : result value := Ok VNone.

(** *** The two methods that call back into the conversion

    [conv_List] calls [self.convert]; [conv_EmbeddedDocument] calls the
    module-level [model_form].  Both callees are parameters here and are
    tied to the real functions in the recursive definition below. *)

Definition conv_List
    (self_convert : document → mfield → option kwargs_t → result value)
    (kwargs : kwargs_t) : result value :=
  let kwargs : kwargs_t := {[ "validators" := VList []; "filters" := VList [] ]} in
  unbound_field ←!
    match inner_field field with
    | Some element => self_convert model element (Some ∅)
    | None => Raise (AttributeError "name")   (* convert reads None.name *)
    end;
  call_with "FieldList" [unbound_field] "min_entries" (VInt 0) kwargs.

Definition conv_SortedList
    (self_convert : document → mfield → option kwargs_t → result value)
    (kwargs : kwargs_t) : result value :=
  conv_List self_convert kwargs.

Definition conv_EmbeddedDocument
    (model_form_default : document → result value)
    (kwargs : kwargs_t) : result value :=
  let kwargs : kwargs_t := {[ "validators" := VList []; "filters" := VList [] ]} in
  form_class ←!
    match document_type_obj field with
    | Some embedded => model_form_default embedded
    | None => Raise (AttributeError "__mro__")  (* getmro of a non-class *)
    end;
  call "FormField" [form_class] kwargs.
End methods.

(** [self.converters[ftype](model, field, kwargs)]: calling a registry
    entry.  [self_convert] is [self.convert] and [model_form_default d] is
    [model_form(d, field_args={})]. *)
Definition call_converter
    (self_convert : document → mfield → option kwargs_t → result value)
    (model_form_default : document → result value)
    (conv : entry) (model : document) (field : mfield) (kwargs : kwargs_t)
    : result value :=
  match conv with
  | Supplied fn => fn model field kwargs
  | Bound conv_String_m => conv_String field kwargs
  | Bound conv_URL_m => conv_URL field kwargs
  | Bound conv_Email_m => conv_Email field kwargs
  | Bound conv_Int_m => conv_Int field kwargs
  | Bound conv_Float_m => conv_Float field kwargs
  | Bound conv_Decimal_m => conv_Decimal field kwargs
  | Bound conv_Boolean_m => conv_Boolean kwargs
  | Bound conv_DateTime_m => conv_DateTime kwargs
  | Bound conv_Binary_m => conv_Binary field kwargs
  | Bound conv_Dict_m => conv_Dict kwargs
  | Bound conv_List_m => conv_List model field self_convert kwargs
  | Bound conv_SortedList_m => conv_SortedList model field self_convert kwargs
  | Bound conv_GeoLocation_m => conv_GeoLocation kwargs
  | Bound conv_ObjectId_m => conv_ObjectId kwargs
  | Bound conv_EmbeddedDocument_m => conv_EmbeddedDocument field model_form_default kwargs
  | Bound conv_Reference_m => conv_Reference field kwargs
  | Bound conv_GenericReference_m => conv_GenericReference kwargs
  end.

(** ** [convert], [model_fields] and [model_form] *)

(** The keyword arguments [convert] starts from. *)
Definition base_kwargs (field : mfield) : kwargs_t :=
  {[ "label" := name (attrs field);
     "description" := VStr "";
     "validators" := VList [];
     "filters" := VList [];
     "default" := default_value (attrs field) ]}.

(** [kwargs.update(field_args)] under [if field_args:] *)
Definition update_kwargs (kwargs : kwargs_t) (field_args : option kwargs_t) : kwargs_t :=
  match field_args with
  | Some fa => if dict_truthy fa then fa ∪ kwargs else kwargs
  | None => kwargs
  end.

(** [type(model.__name__ + 'Form', (base_class,), field_dict)] after
    [field_dict['model_class'] = model] *)
Definition form_type (model : document) (base_class : value) (field_dict : kwargs_t) : value :=
  VType (__name__ model +:+ "Form") [base_class]
        (<["model_class" := class_value model]> field_dict).

(** [x in names] for an optional iterable of names. *)
Definition names_truthy (names : option (list string)) : bool :=
  match names with
  | Some (_ :: _) => true
  | _ => false
  end.

Definition names_of (names : option (list string)) : list string :=
  match names with
  | Some l => l
  | None => []
  end.

(** The [only] / [exclude] selection of [model_fields]. *)
Definition select_names (only exclude : option (list string)) (field_names : list string)
    : list string :=
  if names_truthy only then filter (λ x, x ∈ names_of only) field_names
  else if names_truthy exclude then filter (λ x, x ∉ names_of exclude) field_names
  else field_names.

(** The loop of [model_fields]; [convert_named name] stands for the two
    statements [model_field = model._fields[name]] and
    [field = converter.convert(model, model_field, field_args.get(name))]. *)
Fixpoint collect (convert_named : string → result value) (field_names : list string)
    (field_dict : kwargs_t) : result kwargs_t :=
  match field_names with
  | [] => Ok field_dict
  | name :: rest =>
      field ←! convert_named name;
      collect convert_named rest
        (if is_not_None field then <[name := field]> field_dict else field_dict)
  end.

(** [model._fields_order] when the class has it, else [model._fields.keys()]. *)
Definition field_names_of (model : document) : list string :=
  match _fields_order model with
  | Some order => order
  | None => (map_to_list (_fields model)).*1
  end.

Definition is_document (model : document) : bool :=
  bool_decide ("BaseDocument" ∈ getmro model).

Definition ModelForm : value := VClass "ModelForm".

Fixpoint convert (converters : gmap string entry) (model : document) (field : mfield)
    (field_args : option kwargs_t) {struct field} : result value :=
  let kwargs := update_kwargs (base_kwargs field) field_args in
  kwargs ←! (if required (attrs field) then
               append_validator kwargs (VCall "Required" [] ∅)
             else Ok kwargs);
  if truthy (choices (attrs field)) then
    call "SelectField" [] (<["choices" := choices (attrs field)]> kwargs)
  else
    let ftype := type_name (attrs field) in
    match to_form_field (attrs field) with
    | Some hook => hook (__name__ model) kwargs
    | None =>
        match converters !! ftype with
        | Some conv =>
            call_converter (convert converters)
              (λ embedded,
                 field_dict ←! model_fields embedded None None (Some ∅) None;
                 Ok (form_type embedded ModelForm field_dict))
              conv model field kwargs
        | None => Ok VNone
        end
    end
with model_fields (model : document) (only exclude : option (list string))
    (field_args : option (gmap string kwargs_t))
    (converter : option (gmap string entry)) {struct model} : result kwargs_t :=
  if negb (is_document model) then
    Raise (TypeError "model must be a mongoengine Document schema")
  else
    let converter := match converter with Some c => c | None => ModelConverter None end in
    let field_args := match field_args with
                      | Some fa => if dict_truthy fa then fa else ∅
                      | None => ∅
                      end in
    let field_names := select_names only exclude (field_names_of model) in
    let converted := (λ model_field, convert converter model model_field) <$> _fields model in
    collect
      (λ name,
         match converted !! name with
         | Some convert_field => convert_field (field_args !! name)
         | None => Raise (KeyError name)
         end)
      field_names ∅.

Definition model_form (model : document) (base_class : value)
    (only exclude : option (list string)) (field_args : option (gmap string kwargs_t))
    (converter : option (gmap string entry)) : result value :=
  field_dict ←! model_fields model only exclude field_args converter;
  Ok (form_type model base_class field_dict).

(** The two statements of the loop body of [model_fields] that produce the
    form field for [name]. *)
Definition convert_named (converter : gmap string entry) (model : document)
    (field_args : gmap string kwargs_t) (name : string) : result value :=
  match _fields model !! name with
  | Some model_field => convert converter model model_field (field_args !! name)
  | None => Raise (KeyError name)
  end.

(** [converter or ModelConverter()] *)
Definition converter_or_default (converter : option (gmap string entry))
    : gmap string entry :=
  match converter with
  | Some c => c
  | None => ModelConverter None
  end.

(** [field_args or {}] *)
Definition field_args_or_empty (field_args : option (gmap string kwargs_t))
    : gmap string kwargs_t :=
  match field_args with
  | Some fa => if dict_truthy fa then fa else ∅
  | None => ∅
  end.

(** ** Schema declarations used in the examples

    Field descriptors as mongoengine's constructors build them: every
    attribute that is not given is [None], [required] is [False]. *)

Definition BaseField (cls : string) (nm : value) (req : bool) : field_attrs :=
  {| type_name := cls; name := nm; default_value := VNone; required := req;
     choices := VNone; to_form_field := None; regex := VNone;
     max_length := VNone; min_length := VNone; max_value := VNone;
     min_value := VNone; max_bytes := VNone; document_type := VNone |}.

Definition with_choices (c : value) (a : field_attrs) : field_attrs :=
  {| type_name := type_name a; name := name a; default_value := default_value a;
     required := required a; choices := c; to_form_field := to_form_field a;
     regex := regex a; max_length := max_length a; min_length := min_length a;
     max_value := max_value a; min_value := min_value a; max_bytes := max_bytes a;
     document_type := document_type a |}.

Definition StringField (nm : value) (req : bool) (rx maxl minl : value) : mfield :=
  Field {| type_name := "StringField"; name := nm; default_value := VNone;
           required := req; choices := VNone; to_form_field := None; regex := rx;
           max_length := maxl; min_length := minl; max_value := VNone;
           min_value := VNone; max_bytes := VNone; document_type := VNone |}
        None None.

Definition IntField (nm : value) (req : bool) (minv maxv : value) : mfield :=
  Field {| type_name := "IntField"; name := nm; default_value := VNone;
           required := req; choices := VNone; to_form_field := None; regex := VNone;
           max_length := VNone; min_length := VNone; max_value := maxv;
           min_value := minv; max_bytes := VNone; document_type := VNone |}
        None None.

Definition ListField (nm : value) (req : bool) (element : option mfield) : mfield :=
  Field (BaseField "ListField" nm req) element None.

Definition ObjectIdField (nm : value) (c : value) : mfield :=
  Field (with_choices c (BaseField "ObjectIdField" nm false)) None None.

Definition ReferenceField (nm : value) (target : string) : mfield :=
  Field {| type_name := "ReferenceField"; name := nm; default_value := VNone;
           required := false; choices := VNone; to_form_field := None; regex := VNone;
           max_length := VNone; min_length := VNone; max_value := VNone;
           min_value := VNone; max_bytes := VNone; document_type := VClass target |}
        None None.

Definition document_mro : list string := ["Person"; "Document"; "BaseDocument"; "object"].

(** class Person(Document):
      name = StringField(max_length=50, required=True)
      age = IntField(min_value=0)
      tags = ListField(StringField()) *)
Definition Person : document :=
  Document "Person" document_mro (Some ["name"; "age"; "tags"])
    (<["name" := StringField (VStr "name") true VNone (VInt 50) VNone]>
     (<["age" := IntField (VStr "age") false (VInt 0) VNone]>
      (<["tags" := ListField (VStr "tags") false
                     (Some (StringField VNone false VNone VNone VNone))]> ∅))).


(** ** Concrete inputs *)

(** The mapping [model_fields(Person)] evaluates to. *)
Definition Person_name_field : value :=
  VCall "TextField" []
    {[ "label" := VStr "name"; "description" := VStr "";
       "validators" := VList [VCall "Required" [] ∅;
                              VCall "Length" [] {[ "max" := VInt 50; "min" := VInt (-1) ]}];
       "filters" := VList []; "default" := VNone ]}.

Definition Person_age_field : value :=
  VCall "IntegerField" []
    {[ "label" := VStr "age"; "description" := VStr "";
       "validators" := VList []; "filters" := VList []; "default" := VNone ]}.

Definition Person_tags_field : value :=
  VCall "FieldList"
    [VCall "TextField" []
       {[ "label" := VNone; "description" := VStr "";
          "validators" := VList []; "filters" := VList []; "default" := VNone ]}]
    {[ "min_entries" := VInt 0; "validators" := VList []; "filters" := VList [] ]}.

Definition Person_fields : kwargs_t :=
  {[ "name" := Person_name_field; "age" := Person_age_field;
     "tags" := Person_tags_field ]}.

(** A caller-supplied function for string fields. *)
Definition hidden_converter : callable :=
  λ _ _ kwargs, Ok (VCall "HiddenField" [] kwargs).

Definition caller_converters : gmap string callable :=
  {[ "StringField" := hidden_converter ]}.

(** tags = ListField(StringField(), required=True) *)
Definition required_tags : mfield :=
  ListField (VStr "tags") true (Some (StringField VNone false VNone VNone VNone)).

(** code = StringField(regex=..., max_length=8) *)
Definition code_field : mfield :=
  StringField (VStr "code") false (VStr "^[A-Z]+$") (VInt 8) VNone.

(** kind = StringField(choices=('a', 'b'), required=True) *)
Definition kind_field : mfield :=
  Field (with_choices (VTuple [VStr "a"; VStr "b"]) (BaseField "StringField" (VStr "kind") true))
        None None.

(** oid = ObjectIdField(choices=[1, 2]) and a schema holding it *)
Definition oid_field : mfield := ObjectIdField (VStr "oid") (VList [VInt 1; VInt 2]).

Definition Tagged : document :=
  Document "Tagged" ["Tagged"; "Document"; "BaseDocument"; "object"] (Some ["oid"])
    {[ "oid" := oid_field ]}.

(** oid = ObjectIdField() *)
Definition Plain : document :=
  Document "Plain" ["Plain"; "Document"; "BaseDocument"; "object"] (Some ["oid"])
    {[ "oid" := ObjectIdField (VStr "oid") VNone ]}.

(** class Article(Document): author = ReferenceField(User) *)
Definition Article : document :=
  Document "Article" ["Article"; "Document"; "BaseDocument"; "object"] (Some ["author"])
    {[ "author" := ReferenceField (VStr "author") "User" ]}.

(** A class that is not a document schema. *)
Definition NotADocument : document :=
  Document "Form" ["Form"; "object"] None ∅.

(** field_args giving the reference field a second [model] *)
Definition model_override : gmap string kwargs_t :=
  {[ "author" := {[ "model" := VClass "Other" ]} ]}.

Definition years_args : gmap string kwargs_t :=
  {[ "age" := {[ "label" := VStr "Years" ]} ]}.

(** ** Vocabulary for the statements *)

(** The class of the form field a conversion returned. *)
Definition form_class_of (r : result value) : string :=
  match r with Ok (VCall cls _ _) => cls | _ => "" end.


(** Every type name some tagged method handles. *)
Definition default_names : list string := dir_self ≫= _converter_for.

(** The methods that hand the keyword arguments they receive on to the form
    field they build; the others build fresh ones or return nothing. *)
Definition passes_kwargs (m : method) : bool :=
  match m with
  | conv_List_m | conv_SortedList_m | conv_EmbeddedDocument_m
  | conv_GeoLocation_m | conv_ObjectId_m | conv_GenericReference_m => false
  | _ => true
  end.

(** The validators of a produced form field: its [validators] keyword. *)
Definition validators_of (v : value) : list value :=
  match v with
  | VCall _ _ kwargs =>
      match kwargs !! "validators" with
      | Some (VList l) => l
      | _ => []
      end
  | _ => []
  end.

Definition is_Required (v : value) : bool :=
  match v with
  | VCall cls _ _ => String.eqb cls "Required"
  | _ => false
  end.

Definition count_required (l : list value) : nat :=
  length (filter (λ v, is_Required v = true) l).

(** The [validators] entry of a keyword dictionary is a list, so [append]
    is available on it. *)
Definition validators_is_list (kwargs : kwargs_t) : bool :=
  match kwargs !! "validators" with
  | Some (VList _) => true
  | _ => false
  end.

(** The validators each method appends, in order. *)
Definition regex_validators (field : mfield) : list value :=
  if truthy (regex (attrs field)) then
    [VCall "Regexp" [] {[ "regex" := regex (attrs field) ]}]
  else [].

Definition length_validators (field : mfield) : list value :=
  if truthy (py_or (max_length (attrs field)) (min_length (attrs field))) then
    [VCall "Length" []
       {[ "max" := py_or (max_length (attrs field)) (VInt (-1));
          "min" := py_or (min_length (attrs field)) (VInt (-1)) ]}]
  else [].

Definition range_validators (field : mfield) : list value :=
  if truthy (py_or (max_value (attrs field)) (min_value (attrs field))) then
    [VCall "NumberRange" []
       {[ "max" := max_value (attrs field); "min" := min_value (attrs field) ]}]
  else [].

Definition bytes_validators (field : mfield) : list value :=
  if truthy (max_bytes (attrs field)) then
    [VCall "Length" [] {[ "max" := max_bytes (attrs field) ]}]
  else [].

Definition required_validators (field : mfield) : list value :=
  if required (attrs field) then [VCall "Required" [] ∅] else [].

Definition method_validators (m : method) (field : mfield) : list value :=
  match m with
  | conv_String_m => regex_validators field ++ length_validators field
  | conv_URL_m => VCall "URL" [] ∅ :: length_validators field
  | conv_Email_m => VCall "Email" [] ∅ :: length_validators field
  | conv_Int_m | conv_Float_m | conv_Decimal_m => range_validators field
  | conv_Binary_m => bytes_validators field
  | _ => []
  end.

(** The form-field class each kwargs-passing method instantiates. *)
Definition method_class (m : method) (field : mfield) : string :=
  match m with
  | conv_String_m =>
      if eq_minus_one (max_length (attrs field)) then "TextAreaField" else "TextField"
  | conv_URL_m | conv_Email_m => "TextField"
  | conv_Int_m => "IntegerField"
  | conv_Float_m => "FloatField"
  | conv_Decimal_m => "DecimalField"
  | conv_Boolean_m => "BooleanField"
  | conv_DateTime_m => "DateTimeField"
  | conv_Binary_m | conv_Dict_m => "TextAreaField"
  | conv_Reference_m => "ModelSelectField"
  | _ => ""
  end.

(** The last statement of a kwargs-passing method. *)
Definition finish (m : method) (field : mfield) (kwargs : kwargs_t) : result value :=
  match m with
  | conv_Reference_m =>
      call_with "ModelSelectField" [] "model" (document_type (attrs field)) kwargs
  | _ => call (method_class m field) [] kwargs
  end.

(** Replacing the label of a produced form field. *)
Definition relabel (label : value) (v : value) : value :=
  match v with
  | VCall cls args kwargs => VCall cls args (<["label" := label]> kwargs)
  | _ => v
  end.

Definition map_result {A B : Type} (f : A → B) (r : result A) : result B :=
  match r with
  | Ok a => Ok (f a)
  | Raise e => Raise e
  end.

(** The same descriptor under another class name. *)
Definition retype (cls : string) (a : field_attrs) : field_attrs :=
  {| type_name := cls; name := name a; default_value := default_value a;
     required := required a; choices := choices a; to_form_field := to_form_field a;
     regex := regex a; max_length := max_length a; min_length := min_length a;
     max_value := max_value a; min_value := min_value a; max_bytes := max_bytes a;
     document_type := document_type a |}.

(** ** Well-formed schemas

    The conditions under which no step of the conversion raises: no
    self-conversion hook, every list field has an element field, every
    embedded schema is itself a well-formed document class, and the declared
    field order names registered fields only. *)

Definition is_list_type (cls : string) : bool :=
  String.eqb cls "ListField" || String.eqb cls "SortedListField".

Fixpoint wf_field (field : mfield) : bool :=
  match field with
  | Field a element embedded =>
      match to_form_field a with Some _ => false | None => true end &&
      (truthy (choices a) ||
       if is_list_type (type_name a) then
         match element with Some e => wf_field e | None => false end
       else if String.eqb (type_name a) "EmbeddedDocumentField" then
         match embedded with Some d => wf_document d | None => false end
       else true)
  end
with wf_document (model : document) : bool :=
  match model with
  | Document _ mro order fs =>
      bool_decide ("BaseDocument" ∈ mro) &&
      forallb (λ n, bool_decide (is_Some (fs !! n))) (from_option id [] order) &&
      bool_decide (map_Forall (λ _ b, b = true) (wf_field <$> fs))
  end.

(** Caller-side keyword overrides that are well-typed for a field: the
    [validators] entry stays a list, and a reference field is not given a
    second [model]. *)
Definition args_ok (field : mfield) (field_args : option kwargs_t) : bool :=
  let kwargs := update_kwargs (base_kwargs field) field_args in
  validators_is_list kwargs &&
  (negb (String.eqb (type_name (attrs field)) "ReferenceField") ||
   match kwargs !! "model" with None => true | Some _ => false end).

(** Every function the caller registered returns. *)
Definition supplied_total (c : option (gmap string callable)) : Prop :=
  ∀ cs n fn, c = Some cs → cs !! n = Some fn →
    ∀ model field kwargs, ∃ v, fn model field kwargs = Ok v.

(** Sizes, for induction over nested schemas. *)
Fixpoint field_size (field : mfield) : nat :=
  match field with
  | Field _ element embedded =>
      S (from_option field_size 0%nat element + from_option document_size 0%nat embedded)
  end
with document_size (model : document) : nat :=
  match model with
  | Document _ _ _ fs =>
      S (map_fold (λ _ n acc, (n + acc)%nat) 0%nat (field_size <$> fs))
  end.

(** ** Further concrete inputs *)

(** location = PointField(): a field class of the caller's own. *)
Definition point_field : mfield :=
  Field (BaseField "PointField" (VStr "location") true) None None.

Definition point_converter : callable :=
  λ _ _ kwargs, Ok (VCall "PointWidgetField" [] kwargs).

Definition point_converters : gmap string callable :=
  {[ "PointField" := point_converter ]}.

Definition Place : document :=
  Document "Place" ["Place"; "Document"; "BaseDocument"; "object"] (Some ["location"])
    {[ "location" := point_field ]}.

(** A string field whose class converts itself. *)
Definition self_converting_field : mfield :=
  Field {| type_name := "StringField"; name := VStr "slug"; default_value := VNone;
           required := true; choices := VNone;
           to_form_field := Some (λ _ kwargs, Ok (VCall "SlugField" [] kwargs));
           regex := VNone; max_length := VNone; min_length := VNone;
           max_value := VNone; min_value := VNone; max_bytes := VNone;
           document_type := VNone |}
        None None.

(** homepage = URLField(max_length=-1) *)
Definition homepage_field : mfield :=
  Field {| type_name := "URLField"; name := VStr "homepage"; default_value := VNone;
           required := false; choices := VNone; to_form_field := None;
           regex := VNone; max_length := VInt (-1); min_length := VNone;
           max_value := VNone; min_value := VNone; max_bytes := VNone;
           document_type := VNone |}
        None None.

(** data = BinaryField(max_bytes=1024) *)
Definition data_field : mfield :=
  Field {| type_name := "BinaryField"; name := VStr "data"; default_value := VNone;
           required := false; choices := VNone; to_form_field := None;
           regex := VNone; max_length := VNone; min_length := VNone;
           max_value := VNone; min_value := VNone; max_bytes := VInt 1024;
           document_type := VNone |}
        None None.

(** class Address(EmbeddedDocument): city = StringField()
    class Customer(Document): address = EmbeddedDocumentField(Address) *)
Definition Address : document :=
  Document "Address" ["Address"; "EmbeddedDocument"; "BaseDocument"; "object"]
    (Some ["city"])
    {[ "city" := StringField (VStr "city") false VNone VNone VNone ]}.

Definition address_field : mfield :=
  Field (BaseField "EmbeddedDocumentField" (VStr "address") true) None (Some Address).

(** A schema whose declared order names a field it does not have. *)
Definition Broken : document :=
  Document "Broken" ["Broken"; "Document"; "BaseDocument"; "object"]
    (Some ["ghost"; "city"])
    {[ "city" := StringField (VStr "city") false VNone VNone VNone ]}.

(** validators given as a tuple *)
Definition tuple_validators : kwargs_t :=
  {[ "validators" := VTuple [VCall "Optional" [] ∅] ]}.

(** extra keyword arguments for a form field *)
Definition widget_args : kwargs_t :=
  {[ "widget" := VClass "TextArea"; "description" := VStr "Full name" ]}.

(** The form-field classes the module instantiates. *)
Definition form_classes : list string :=
  [ "SelectField"; "TextField"; "TextAreaField"; "IntegerField"; "FloatField";
    "DecimalField"; "BooleanField"; "DateTimeField"; "FieldList"; "FormField";
    "ModelSelectField" ].

(** * Properties *)

(** ** Unfolding equations: the recursive definitions in the shape of the source *)

Lemma bind_Ok {A B : Type} (a : A) (k : A → result B) : bind (Ok a) k = k a.
Proof. reflexivity. Qed.

Lemma bind_Ok_inv {A B : Type} (r : result A) (k : A → result B) (b : B) :
  bind r k = Ok b → ∃ a, r = Ok a ∧ k a = Ok b.
Proof. destruct r as [a|e]; simpl; [eauto | discriminate]. Qed.

Lemma collect_ext (f g : string → result value) (names : list string) :
  (∀ n, n ∈ names → f n = g n) →
  ∀ acc, collect f names acc = collect g names acc.
Proof.
  induction names as [|n names IH]; intros Hfg acc; simpl; [done|].
  rewrite (Hfg n) by left.
  destruct (g n) as [v|e]; simpl; [|done].
  apply IH. intros n' Hn'. apply Hfg. by right.
Qed.

Lemma model_fields_unfold model only exclude field_args converter :
  model_fields model only exclude field_args converter =
  if negb (is_document model) then
    Raise (TypeError "model must be a mongoengine Document schema")
  else
    collect
      (convert_named (converter_or_default converter) model
         (field_args_or_empty field_args))
      (select_names only exclude (field_names_of model)) ∅.
Proof.
  destruct model as [n mro order fs]; simpl.
  destruct (negb _); [done|].
  apply collect_ext. intros k _.
  unfold convert_named; simpl. rewrite lookup_fmap.
  by destruct (fs !! k).
Qed.

Lemma convert_unfold converters model field field_args :
  convert converters model field field_args =
  (let kwargs := update_kwargs (base_kwargs field) field_args in
   kwargs ←! (if required (attrs field) then
                append_validator kwargs (VCall "Required" [] ∅)
              else Ok kwargs);
   if truthy (choices (attrs field)) then
     call "SelectField" [] (<["choices" := choices (attrs field)]> kwargs)
   else
     match to_form_field (attrs field) with
     | Some hook => hook (__name__ model) kwargs
     | None =>
         match converters !! type_name (attrs field) with
         | Some conv =>
             call_converter (convert converters)
               (λ embedded, model_form embedded ModelForm None None (Some ∅) None)
               conv model field kwargs
         | None => Ok VNone
         end
     end).
Proof. by destruct field. Qed.

(** ** The registry built by [ModelConverter.__init__] *)

Lemma register_union (reg base : gmap string entry) (m : method) :
  register (reg ∪ base) m = register reg m ∪ base.
Proof.
  unfold register. generalize (_converter_for m) as tags.
  intros tags. revert reg.
  induction tags as [|t tags IH]; intros reg; simpl; [done|].
  by rewrite insert_union_l, IH.
Qed.

Lemma foldl_register_union (ms : list method) (reg base : gmap string entry) :
  foldl register (reg ∪ base) ms = foldl register reg ms ∪ base.
Proof.
  revert reg. induction ms as [|m ms IH]; intros reg; simpl; [done|].
  by rewrite register_union, IH.
Qed.

Lemma dict_truthy_false {A : Type} (d : gmap string A) :
  dict_truthy d = false → d = ∅.
Proof.
  unfold dict_truthy. intros H%negb_false_iff%bool_decide_eq_true.
  by apply map_size_empty_inv.
Qed.

(** The merge order of [__init__]: the tagged methods are written over the
    caller's mapping, so the result is the default table with the caller's
    entries filling only the names no method handles. *)
Lemma ModelConverter_union (c : gmap string callable) :
  ModelConverter (Some c) = ModelConverter None ∪ (Supplied <$> c).
Proof.
  unfold ModelConverter.
  destruct (dict_truthy c) eqn:Hc.
  - rewrite <- foldl_register_union. by rewrite (left_id_L ∅ (∪)).
  - apply dict_truthy_false in Hc as ->.
    by rewrite fmap_empty, (right_id_L ∅ (∪)).
Qed.

Lemma ModelConverter_default (m : method) (n : string) :
  n ∈ _converter_for m → ModelConverter None !! n = Some (Bound m).
Proof.
  intros Hn. destruct m; apply list_elem_of_singleton in Hn as ->; reflexivity.
Qed.

Lemma ModelConverter_bound (c : option (gmap string callable)) (m : method) (n : string) :
  n ∈ _converter_for m → ModelConverter c !! n = Some (Bound m).
Proof.
  intros Hn. destruct c as [c|]; [|by apply ModelConverter_default].
  rewrite ModelConverter_union, lookup_union.
  by rewrite (ModelConverter_default m n Hn), union_Some_l.
Qed.


(** ** Appending validators *)

Lemma append_validator_list (kwargs : kwargs_t) (l : list value) (v : value) :
  kwargs !! "validators" = Some (VList l) →
  append_validator kwargs v = Ok (<["validators" := VList (l ++ [v])]> kwargs).
Proof. unfold append_validator. by intros ->. Qed.

Lemma validators_is_list_spec (kwargs : kwargs_t) :
  validators_is_list kwargs = true ↔ ∃ l, kwargs !! "validators" = Some (VList l).
Proof.
  unfold validators_is_list. split.
  - destruct (kwargs !! "validators") as [[]|]; try discriminate; eauto.
  - by intros [l ->].
Qed.

(** Appending nothing leaves the dictionary as it is. *)
Lemma insert_validators_nil (kwargs : kwargs_t) (l : list value) :
  kwargs !! "validators" = Some (VList l) →
  <["validators" := VList (l ++ [])]> kwargs = kwargs.
Proof. intros H. rewrite app_nil_r. by apply insert_id. Qed.

Lemma append_validators_opt (kwargs : kwargs_t) (l : list value) (b : bool) (v : value) :
  kwargs !! "validators" = Some (VList l) →
  (if b then append_validator kwargs v else Ok kwargs)
  = Ok (<["validators" := VList (l ++ if b then [v] else [])]> kwargs).
Proof.
  intros H. destruct b.
  - by apply append_validator_list.
  - by rewrite insert_validators_nil.
Qed.

Lemma _string_common_list field (kwargs : kwargs_t) (l : list value) :
  kwargs !! "validators" = Some (VList l) →
  _string_common field kwargs
  = Ok (<["validators" := VList (l ++ length_validators field)]> kwargs).
Proof.
  intros H. unfold _string_common, length_validators.
  rewrite (append_validators_opt _ l) by done. by destruct (truthy _).
Qed.

Lemma _number_common_list field (kwargs : kwargs_t) (l : list value) :
  kwargs !! "validators" = Some (VList l) →
  _number_common field kwargs
  = Ok (<["validators" := VList (l ++ range_validators field)]> kwargs).
Proof.
  intros H. unfold _number_common, range_validators.
  rewrite (append_validators_opt _ l) by done. by destruct (truthy _).
Qed.

(** What a kwargs-passing method returns: the keyword arguments it was
    given, with its validators appended, handed to its form-field class. *)
Lemma passes_kwargs_spec sc mf (m : method) model field (kwargs : kwargs_t) (l : list value) :
  passes_kwargs m = true →
  kwargs !! "validators" = Some (VList l) →
  call_converter sc mf (Bound m) model field kwargs
  = finish m field (<["validators" := VList (l ++ method_validators m field)]> kwargs).
Proof.
  intros Hm Hl.
  destruct m; try discriminate Hm; simpl;
    unfold conv_String, conv_URL, conv_Email, conv_Int, conv_Float, conv_Decimal,
      conv_Boolean, conv_DateTime, conv_Binary, conv_Dict, conv_Reference, finish,
      method_class, regex_validators, bytes_validators;
    rewrite ?(insert_validators_nil _ l) by done; try done.
  - rewrite (append_validators_opt _ l) by done. simpl.
    done.
  - rewrite (_number_common_list _ _ l) by done. done.
  - rewrite (append_validator_list _ l) by done. simpl.
    rewrite (_string_common_list _ _ (l ++ [VCall "Email" [] ∅])) by apply lookup_insert_eq.
    simpl. by rewrite insert_insert_eq, <- app_assoc.
  - rewrite (_number_common_list _ _ l) by done. done.
  - rewrite (_number_common_list _ _ l) by done. done.
  - rewrite (append_validators_opt _ l) by done. simpl.
    rewrite (_string_common_list _ _ (l ++ if truthy (regex (attrs field)) then [VCall "Regexp" [] {[ "regex" := regex (attrs field) ]}] else [])) by apply lookup_insert_eq.
    simpl. rewrite insert_insert_eq, <- app_assoc.
    by destruct (eq_minus_one (max_length (attrs field))).
  - rewrite (append_validator_list _ l) by done. simpl.
    rewrite (_string_common_list _ _ (l ++ [VCall "URL" [] ∅])) by apply lookup_insert_eq.
    simpl. by rewrite insert_insert_eq, <- app_assoc.
Qed.


(** ** [convert] on the paths that keep the keyword arguments *)

Lemma required_step field (kwargs : kwargs_t) (l : list value) :
  kwargs !! "validators" = Some (VList l) →
  (if required (attrs field) then append_validator kwargs (VCall "Required" [] ∅)
   else Ok kwargs)
  = Ok (<["validators" := VList (l ++ required_validators field)]> kwargs).
Proof.
  intros H. unfold required_validators.
  rewrite (append_validators_opt _ l) by done. by destruct (required _).
Qed.

Lemma convert_choices converters model field field_args (l : list value) :
  truthy (choices (attrs field)) = true →
  update_kwargs (base_kwargs field) field_args !! "validators" = Some (VList l) →
  convert converters model field field_args
  = Ok (VCall "SelectField" []
          (<["choices" := choices (attrs field)]>
             (<["validators" := VList (l ++ required_validators field)]>
                (update_kwargs (base_kwargs field) field_args)))).
Proof.
  intros Hc Hl. rewrite convert_unfold. cbv zeta.
  rewrite (required_step _ _ l) by done. rewrite bind_Ok; cbv beta. by rewrite Hc.
Qed.

Lemma convert_passes c model field field_args (m : method) (l : list value) :
  to_form_field (attrs field) = None →
  truthy (choices (attrs field)) = false →
  type_name (attrs field) ∈ _converter_for m →
  passes_kwargs m = true →
  update_kwargs (base_kwargs field) field_args !! "validators" = Some (VList l) →
  convert (ModelConverter c) model field field_args
  = finish m field
      (<["validators" := VList (l ++ required_validators field ++ method_validators m field)]>
         (update_kwargs (base_kwargs field) field_args)).
Proof.
  intros Hh Hc Hm Hp Hl. rewrite convert_unfold. cbv zeta.
  rewrite (required_step _ _ l) by done. rewrite bind_Ok; cbv beta. rewrite Hc, Hh.
  rewrite (ModelConverter_bound c m) by done.
  rewrite (passes_kwargs_spec _ _ m _ _ _ (l ++ required_validators field))
    by (done || apply lookup_insert_eq).
  by rewrite insert_insert_eq, <- app_assoc.
Qed.

(** The paths that return nothing. *)
Lemma convert_unsupported c model field field_args (m : method) (l : list value) :
  to_form_field (attrs field) = None →
  truthy (choices (attrs field)) = false →
  type_name (attrs field) ∈ _converter_for m →
  m = conv_GeoLocation_m ∨ m = conv_ObjectId_m ∨ m = conv_GenericReference_m →
  update_kwargs (base_kwargs field) field_args !! "validators" = Some (VList l) →
  convert (ModelConverter c) model field field_args = Ok VNone.
Proof.
  intros Hh Hc Hm Hu Hl. rewrite convert_unfold. cbv zeta.
  rewrite (required_step _ _ l) by done. rewrite bind_Ok; cbv beta. rewrite Hc, Hh.
  rewrite (ModelConverter_bound c m) by done.
  by destruct Hu as [->|[->| ->]].
Qed.

(** ** The claims *)

(** C1 (round trip on the example schema).  On
    [Person = {name: StringField(max_length=50, required=True),
    age: IntField(min_value=0), tags: ListField(StringField())}] the mapping
    built by [model_fields] has exactly the keys name, age and tags; [name] is
    a [TextField] with a required validator and a length validator
    (max 50, min -1); [tags] is a [FieldList] with [min_entries=0] around a
    [TextField].  The [age] field is an [IntegerField] whose validator list
    is empty: [_number_common] tests [field.max_value or field.min_value],
    and the declared bound 0 is false, so no number-range validator is
    appended. *)
Theorem C1_person_round_trip :
  model_fields Person None None None None = Ok Person_fields ∧
  dom Person_fields = ({[ "name"; "age"; "tags" ]} : gset string) ∧
  validators_of Person_name_field
    = [VCall "Required" [] ∅;
       VCall "Length" [] {[ "max" := VInt 50; "min" := VInt (-1) ]}] ∧
  validators_of Person_age_field = [] ∧
  range_validators (IntField (VStr "age") false (VInt 0) VNone) = [].
Proof.
  split; [reflexivity|].
  split; [reflexivity|].
  split; [reflexivity|].
  split; reflexivity.
Qed.


(** C3, counterexample.  The caller maps [StringField] to its own function;
    the registry built by [__init__] maps that name to the method
    [conv_String], and converting a string field yields the [TextField] of
    [conv_String], not the caller's [HiddenField]. *)
Lemma C3_caller_entry_overwritten :
  caller_converters !! "StringField" = Some hidden_converter ∧
  ModelConverter (Some caller_converters) !! "StringField" = Some (Bound conv_String_m) ∧
  ModelConverter (Some caller_converters) !! "StringField" ≠ Some (Supplied hidden_converter) ∧
  convert (ModelConverter (Some caller_converters)) Person code_field None
    = Ok (VCall "TextField" []
            {[ "label" := VStr "code"; "description" := VStr "";
               "validators" := VList [VCall "Regexp" [] {[ "regex" := VStr "^[A-Z]+$" ]};
                                      VCall "Length" [] {[ "max" := VInt 8; "min" := VInt (-1) ]}];
               "filters" := VList []; "default" := VNone ]}) ∧
  convert (ModelConverter (Some caller_converters)) Person code_field None
    ≠ hidden_converter Person code_field (base_kwargs code_field).
Proof.
  assert (H : ModelConverter (Some caller_converters) !! "StringField"
              = Some (Bound conv_String_m)) by reflexivity.
  split; [reflexivity|]. split; [exact H|].
  split; [intros Heq; rewrite H in Heq; discriminate Heq|].
  split; [reflexivity|].
  intros Heq. apply (f_equal form_class_of) in Heq.
  vm_compute in Heq. discriminate Heq.
Qed.

(** C3, as the code has it.  The tagged methods are written into the
    caller's mapping, so on a key collision the default method wins: for
    every type name [n] handled by a default method [m], whatever the caller
    supplied, the registry maps [n] to [m], and [convert] dispatches a field
    of that type (one without choices and without a self-conversion hook) to
    [m].  The caller's entries survive exactly for the names no default
    method handles. *)
Theorem C3_default_entries_win
    (c : gmap string callable) (m : method) (n : string)
    (model : document) (field : mfield) (field_args : option kwargs_t) :
  n ∈ _converter_for m →
  type_name (attrs field) = n →
  to_form_field (attrs field) = None →
  truthy (choices (attrs field)) = false →
  ModelConverter (Some c) !! n = Some (Bound m) ∧
  ModelConverter (Some c) = ModelConverter None ∪ (Supplied <$> c) ∧
  convert (ModelConverter (Some c)) model field field_args
  = (kwargs ←! (if required (attrs field) then
                  append_validator (update_kwargs (base_kwargs field) field_args)
                    (VCall "Required" [] ∅)
                else Ok (update_kwargs (base_kwargs field) field_args));
     call_converter (convert (ModelConverter (Some c)))
       (λ embedded, model_form embedded ModelForm None None (Some ∅) None)
       (Bound m) model field kwargs).
Proof.
  intros Hn Ht Hh Hc.
  split; [by apply ModelConverter_bound|].
  split; [by apply ModelConverter_union|].
  rewrite convert_unfold. cbv zeta.
  rewrite Hc, Hh, Ht, (ModelConverter_bound _ m n Hn). done.
Qed.

Lemma C3_default_entries_win_witness :
  ModelConverter (Some caller_converters) !! "StringField" = Some (Bound conv_String_m).
Proof.
  refine (proj1 (C3_default_entries_win caller_converters conv_String_m "StringField"
                   Person code_field None _ _ _ _)).
  - apply list_elem_of_singleton; reflexivity.
  - reflexivity.
  - reflexivity.
  - reflexivity.
Defined.


(** What [conv_List] returns, whatever keyword arguments it is given. *)
Lemma conv_List_unfold self_convert model field (kwargs : kwargs_t) :
  conv_List model field self_convert kwargs
  = (unbound_field ←!
       match inner_field field with
       | Some element => self_convert model element (Some ∅)
       | None => Raise (AttributeError "name")
       end;
     Ok (VCall "FieldList" [unbound_field]
           {[ "min_entries" := VInt 0; "validators" := VList [];
              "filters" := VList [] ]})).
Proof. reflexivity. Qed.

(** C7.  [conv_SortedList] returns what [conv_List] returns, for every
    schema, field descriptor and keyword arguments; that result does not
    depend on the keyword arguments passed in, and is the [FieldList] with
    [min_entries=0] and fresh empty validators and filters around the
    conversion of the element field with empty keyword arguments.  So a
    descriptor converts the same under the class name [SortedListField] as
    under [ListField]. *)
Theorem C7_sorted_list_is_list
    (self_convert : document → mfield → option kwargs_t → result value)
    (c : option (gmap string callable)) (model : document) (field : mfield)
    (kwargs kwargs' : kwargs_t) (field_args : option kwargs_t) :
  conv_SortedList model field self_convert kwargs
    = conv_List model field self_convert kwargs ∧
  conv_List model field self_convert kwargs
    = conv_List model field self_convert kwargs' ∧
  conv_List model field self_convert kwargs
    = (unbound_field ←!
         match inner_field field with
         | Some element => self_convert model element (Some ∅)
         | None => Raise (AttributeError "name")
         end;
       Ok (VCall "FieldList" [unbound_field]
             {[ "min_entries" := VInt 0; "validators" := VList [];
                "filters" := VList [] ]})) ∧
  convert (ModelConverter c) model
      (Field (retype "SortedListField" (attrs field)) (inner_field field)
             (document_type_obj field)) field_args
    = convert (ModelConverter c) model
        (Field (retype "ListField" (attrs field)) (inner_field field)
               (document_type_obj field)) field_args.
Proof.
  split; [reflexivity|]. split; [reflexivity|]. split; [apply conv_List_unfold|].
  rewrite !convert_unfold. cbv zeta.
  unfold base_kwargs. cbn [attrs retype type_name name default_value required choices to_form_field].
  rewrite (ModelConverter_bound c conv_SortedList_m "SortedListField")
    by (apply list_elem_of_singleton; reflexivity).
  rewrite (ModelConverter_bound c conv_List_m "ListField")
    by (apply list_elem_of_singleton; reflexivity).
  reflexivity.
Qed.


(** ** Counting required validators *)

Lemma count_required_app (l1 l2 : list value) :
  count_required (l1 ++ l2) = (count_required l1 + count_required l2)%nat.
Proof. unfold count_required. by rewrite filter_app, length_app. Qed.

Lemma count_required_method (m : method) field :
  count_required (method_validators m field) = 0%nat.
Proof.
  destruct m; simpl; try reflexivity;
    unfold regex_validators, length_validators, range_validators, bytes_validators;
    repeat match goal with |- context [truthy ?v] => destruct (truthy v) end;
    reflexivity.
Qed.

Lemma validators_of_finish (m : method) field (kwargs : kwargs_t) (l : list value) v :
  finish m field (<["validators" := VList l]> kwargs) = Ok v →
  validators_of v = l.
Proof.
  unfold finish, call, call_with. intros H.
  destruct m;
    try (injection H as <-; unfold validators_of; by rewrite lookup_insert_eq).
  destruct (_ !! "model") eqn:Hm; [discriminate|].
  injection H as <-. unfold validators_of.
  by rewrite lookup_insert_ne, lookup_insert_eq.
Qed.

(** C4.  A field whose descriptor declares choices (any true value: a
    non-empty list or tuple) converts to a [SelectField] whose [choices]
    keyword is exactly the declared value, whatever the field's class; the
    result is the same for every registry, so no registered converter takes
    part.  (Should the caller override [validators] for a required field,
    the override has to be a list, as [append] is called on it.) *)
Theorem C4_choices_give_select_field model field field_args :
  truthy (choices (attrs field)) = true →
  (required (attrs field) = true →
   validators_is_list (update_kwargs (base_kwargs field) field_args) = true) →
  ∃ kwargs,
    (if required (attrs field) then
       append_validator (update_kwargs (base_kwargs field) field_args)
         (VCall "Required" [] ∅)
     else Ok (update_kwargs (base_kwargs field) field_args)) = Ok kwargs ∧
    (<["choices" := choices (attrs field)]> kwargs) !! "choices"
      = Some (choices (attrs field)) ∧
    ∀ converters,
      convert converters model field field_args
      = Ok (VCall "SelectField" [] (<["choices" := choices (attrs field)]> kwargs)).
Proof.
  intros Hc Hv.
  assert (∃ kwargs,
    (if required (attrs field) then
       append_validator (update_kwargs (base_kwargs field) field_args)
         (VCall "Required" [] ∅)
     else Ok (update_kwargs (base_kwargs field) field_args)) = Ok kwargs)
    as [kwargs Hk].
  { destruct (required (attrs field)); [|eauto].
    destruct (proj1 (validators_is_list_spec _) (Hv eq_refl)) as [l Hl].
    rewrite (append_validator_list _ l) by done. eauto. }
  exists kwargs. split; [done|]. split; [apply lookup_insert_eq|].
  intros converters. rewrite convert_unfold. cbv zeta.
  rewrite Hk, bind_Ok. cbv beta. by rewrite Hc.
Qed.

Lemma C4_choices_give_select_field_witness :
  convert (ModelConverter None) Person kind_field None
  = Ok (VCall "SelectField" []
          {[ "choices" := VTuple [VStr "a"; VStr "b"];
             "label" := VStr "kind"; "description" := VStr "";
             "validators" := VList [VCall "Required" [] ∅];
             "filters" := VList []; "default" := VNone ]}).
Proof.
  destruct (C4_choices_give_select_field Person kind_field None)
    as (kwargs & Hk & _ & H).
  - reflexivity.
  - intros _. reflexivity.
  - injection Hk as <-. rewrite H. reflexivity.
Defined.

(** C10.  A [StringField] without choices (and without its own conversion
    hook) converts to a text field whose validators are the caller's, then
    the required validator if the field is required, then a [Regexp]
    validator built from [field.regex] exactly when a regex is declared,
    then the length validator if a length bound is declared.  With no regex
    declared, conversion appends no [Regexp] validator. *)
Theorem C10_string_regex_validator c model field field_args (l : list value) :
  type_name (attrs field) = "StringField" →
  to_form_field (attrs field) = None →
  truthy (choices (attrs field)) = false →
  update_kwargs (base_kwargs field) field_args !! "validators" = Some (VList l) →
  convert (ModelConverter c) model field field_args
  = Ok (VCall (if eq_minus_one (max_length (attrs field))
               then "TextAreaField" else "TextField") []
          (<["validators" :=
               VList (l ++ required_validators field ++
                      (if truthy (regex (attrs field)) then
                         [VCall "Regexp" [] {[ "regex" := regex (attrs field) ]}]
                       else []) ++
                      length_validators field)]>
             (update_kwargs (base_kwargs field) field_args))).
Proof.
  intros Ht Hh Hc Hl.
  rewrite (convert_passes c model field field_args conv_String_m l); try done.
  rewrite Ht. apply list_elem_of_singleton. reflexivity.
Qed.

Lemma C10_string_regex_validator_witness :
  convert (ModelConverter None) Person code_field None
  = Ok (VCall "TextField" []
          (<["validators" :=
               VList [VCall "Regexp" [] {[ "regex" := VStr "^[A-Z]+$" ]};
                      VCall "Length" [] {[ "max" := VInt 8; "min" := VInt (-1) ]}]]>
             (base_kwargs code_field))).
Proof.
  apply (C10_string_regex_validator None Person code_field None []); reflexivity.
Defined.


(** C2, counterexample.  [tags = ListField(StringField(), required=True)]
    declares [required]; [conv_List] replaces the keyword arguments that
    carry the required validator by fresh ones, and the produced
    [FieldList] has no required validator. *)
Lemma C2_required_list_has_no_required_validator :
  required (attrs required_tags) = true ∧
  ∃ v, convert (ModelConverter None) Person required_tags None = Ok v ∧
       validators_of v = [] ∧
       count_required (validators_of v) ≠ 1%nat.
Proof.
  split; [reflexivity|].
  exists (VCall "FieldList"
            [VCall "TextField" []
               {[ "label" := VNone; "description" := VStr "";
                  "validators" := VList []; "filters" := VList [];
                  "default" := VNone ]}]
            {[ "min_entries" := VInt 0; "validators" := VList [];
               "filters" := VList [] ]}).
  split; [reflexivity|]. split; [reflexivity|].
  intros H. vm_compute in H. discriminate H.
Qed.

(** C2, as the code has it.  Take a field declaring [required=True] with no
    self-conversion hook, converted by a [ModelConverter], where the
    caller's keyword overrides leave [validators] a list [l] holding no
    required validator.
    - If the field declares choices, or its class is handled by a method that
      passes the keyword arguments on (string, URL, email, integer, float,
      decimal, boolean, date-time, binary, dict, reference), the produced
      form field's validators are [l], then exactly one required validator,
      then the type-specific validators.
    - If its class is a list, sorted-list or embedded-document field (and it
      declares no choices), the method builds fresh keyword arguments and the
      produced form field has no required validator. *)
Theorem C2_required_validator_once c model field field_args (m : method) (l : list value) :
  required (attrs field) = true →
  to_form_field (attrs field) = None →
  update_kwargs (base_kwargs field) field_args !! "validators" = Some (VList l) →
  count_required l = 0%nat →
  (truthy (choices (attrs field)) = true ∨
   (type_name (attrs field) ∈ _converter_for m ∧
    passes_kwargs m = true ∧
    (m = conv_Reference_m →
     update_kwargs (base_kwargs field) field_args !! "model" = None)) →
   ∃ v rest, convert (ModelConverter c) model field field_args = Ok v ∧
             validators_of v = (l ++ VCall "Required" [] ∅ :: rest)%list ∧
             count_required rest = 0%nat ∧
             count_required (validators_of v) = 1%nat) ∧
  (truthy (choices (attrs field)) = false →
   type_name (attrs field) ∈ _converter_for m →
   m = conv_List_m ∨ m = conv_SortedList_m ∨ m = conv_EmbeddedDocument_m →
   ∀ v, convert (ModelConverter c) model field field_args = Ok v →
        count_required (validators_of v) = 0%nat).
Proof.
  intros Hr Hh Hl Hcount.
  assert (Hreq : required_validators field = [VCall "Required" [] ∅])
    by (unfold required_validators; by rewrite Hr).
  split.
  - intros Hcase.
    destruct (truthy (choices (attrs field))) eqn:Hc.
    + exists (VCall "SelectField" []
                (<["choices" := choices (attrs field)]>
                   (<["validators" := VList (l ++ required_validators field)]>
                      (update_kwargs (base_kwargs field) field_args)))), [].
      split; [by apply convert_choices|].
      assert (Hv : validators_of (VCall "SelectField" []
                (<["choices" := choices (attrs field)]>
                   (<["validators" := VList (l ++ required_validators field)]>
                      (update_kwargs (base_kwargs field) field_args))))
              = (l ++ [VCall "Required" [] ∅])%list).
      { unfold validators_of.
        by rewrite lookup_insert_ne, lookup_insert_eq, Hreq. }
      rewrite Hv. split; [done|]. split; [done|].
      rewrite count_required_app, Hcount. reflexivity.
    + destruct Hcase as [?|(Hm & Hp & Hmodel)]; [discriminate|].
      pose proof (convert_passes c model field field_args m l Hh Hc Hm Hp Hl) as Hconv.
      assert (∃ v, finish m field
        (<["validators" := VList (l ++ required_validators field ++ method_validators m field)]>
           (update_kwargs (base_kwargs field) field_args)) = Ok v) as [v Hv].
      { unfold finish, call, call_with.
        destruct m; try discriminate Hp; eauto.
        rewrite lookup_insert_ne by done. rewrite Hmodel by done. eauto. }
      exists v, (method_validators m field).
      split; [by rewrite Hconv|].
      apply validators_of_finish in Hv. rewrite Hv, Hreq.
      split; [done|]. split; [apply count_required_method|].
      rewrite count_required_app, Hcount. simpl.
      change (VCall "Required" [] ∅ :: method_validators m field)
        with ([VCall "Required" [] ∅] ++ method_validators m field)%list.
      by rewrite count_required_app, count_required_method.
  - intros Hc Hm Hcase v. rewrite convert_unfold. cbv zeta.
    rewrite (required_step _ _ l) by done. rewrite bind_Ok; cbv beta.
    rewrite Hc, Hh, (ModelConverter_bound c m _ Hm).
    destruct Hcase as [->|[->| ->]]; cbn [call_converter].
    + rewrite conv_List_unfold. intros (u & _ & Hu)%bind_Ok_inv.
      injection Hu as <-. reflexivity.
    + unfold conv_SortedList. rewrite conv_List_unfold.
      intros (u & _ & Hu)%bind_Ok_inv. injection Hu as <-. reflexivity.
    + unfold conv_EmbeddedDocument, call. intros (u & _ & Hu)%bind_Ok_inv.
      injection Hu as <-. reflexivity.
Qed.

Lemma C2_required_validator_once_witness :
  ∃ v rest, convert (ModelConverter None) Person
              (StringField (VStr "name") true VNone (VInt 50) VNone) None = Ok v ∧
            validators_of v = ([] ++ VCall "Required" [] ∅ :: rest)%list ∧
            count_required rest = 0%nat ∧
            count_required (validators_of v) = 1%nat.
Proof.
  refine (proj1 (C2_required_validator_once None Person
                   (StringField (VStr "name") true VNone (VInt 50) VNone) None
                   conv_String_m [] _ _ _ _) _).
  - reflexivity.
  - reflexivity.
  - reflexivity.
  - reflexivity.
  - right. split; [apply list_elem_of_singleton; reflexivity|].
    split; [reflexivity|]. intros H; discriminate H.
Defined.


(** ** The loop of [model_fields] *)

Lemma is_not_None_true (v : value) : is_not_None v = true ↔ v ≠ VNone.
Proof. destruct v; simpl; split; congruence. Qed.

(** What the collected mapping holds for each name: the converted field if
    the name was visited and converted to something, else what was there. *)
Lemma collect_Ok_lookup f (names : list string) (acc fd : kwargs_t) (n : string) :
  collect f names acc = Ok fd →
  (n ∈ names →
   ∃ v, f n = Ok v ∧ fd !! n = if is_not_None v then Some v else acc !! n) ∧
  (n ∉ names → fd !! n = acc !! n).
Proof.
  revert acc. induction names as [|x names IH]; intros acc; simpl.
  - intros [= <-]. split; [by intros ?%elem_of_nil|done].
  - intros (vx & Hx & Hrest)%bind_Ok_inv.
    destruct (IH _ Hrest) as [IHin IHout].
    split.
    + intros Hn.
      destruct (decide (n ∈ names)) as [Hin|Hnotin].
      * destruct (IHin Hin) as (v & Hv & Hfd). exists v. split; [done|].
        rewrite Hfd. destruct (is_not_None v) eqn:Hnn; [done|].
        destruct (decide (x = n)) as [->|Hne].
        -- rewrite Hv in Hx. injection Hx as <-. by rewrite Hnn.
        -- destruct (is_not_None vx); [by rewrite lookup_insert_ne|done].
      * apply elem_of_cons in Hn as [->|?]; [|done].
        exists vx. split; [done|]. rewrite (IHout Hnotin).
        destruct (is_not_None vx); [by rewrite lookup_insert_eq|done].
    + intros Hn. apply not_elem_of_cons in Hn as [Hne Hnotin].
      rewrite (IHout Hnotin).
      destruct (is_not_None vx); [by rewrite lookup_insert_ne|done].
Qed.

(** The loop returns as soon as every visited name converts. *)
Lemma collect_total f (names : list string) (acc : kwargs_t) :
  (∀ n, n ∈ names → ∃ v, f n = Ok v) →
  ∃ fd, collect f names acc = Ok fd.
Proof.
  revert acc. induction names as [|x names IH]; intros acc Hf; simpl; [eauto|].
  destruct (Hf x) as [v ->]; [by left|]. rewrite bind_Ok.
  apply IH. intros n Hn. apply Hf. by right.
Qed.

Lemma select_names_only (only : list string) exclude (names : list string) :
  only ≠ [] →
  select_names (Some only) exclude names = filter (λ x, x ∈ only) names.
Proof. intros H. unfold select_names. by destruct only. Qed.

Lemma select_names_subseteq only exclude (names : list string) (n : string) :
  n ∈ select_names only exclude names → n ∈ names.
Proof.
  unfold select_names.
  destruct (names_truthy only); [by intros [_ ?]%list_elem_of_filter|].
  destruct (names_truthy exclude); [by intros [_ ?]%list_elem_of_filter|done].
Qed.

Lemma model_fields_default_converter model only exclude field_args :
  model_fields model only exclude field_args None
  = model_fields model only exclude field_args (Some (ModelConverter None)).
Proof. by rewrite !model_fields_unfold. Qed.

(** A field [convert] resolves to one of the methods that return nothing
    converts to nothing whenever it converts at all. *)
Lemma convert_unsupported_inv c model field field_args (m : method) v :
  to_form_field (attrs field) = None →
  truthy (choices (attrs field)) = false →
  type_name (attrs field) ∈ _converter_for m →
  m = conv_GeoLocation_m ∨ m = conv_ObjectId_m ∨ m = conv_GenericReference_m →
  convert (ModelConverter c) model field field_args = Ok v → v = VNone.
Proof.
  intros Hh Hc Hm Hu. rewrite convert_unfold. cbv zeta.
  intros (kwargs & _ & H)%bind_Ok_inv. revert H.
  rewrite Hc, Hh, (ModelConverter_bound c m _ Hm).
  destruct Hu as [->|[->| ->]]; by intros [= <-].
Qed.

Lemma unsupported_method (cls : string) :
  cls ∈ ["GeoLocationField"; "GenericReferenceField"; "ObjectIdField"] →
  ∃ m, cls ∈ _converter_for m ∧
       (m = conv_GeoLocation_m ∨ m = conv_ObjectId_m ∨ m = conv_GenericReference_m).
Proof.
  rewrite !elem_of_cons, elem_of_nil. intros [->|[->|[->|[]]]].
  - exists conv_GeoLocation_m. split; [apply list_elem_of_singleton; reflexivity|tauto].
  - exists conv_GenericReference_m. split; [apply list_elem_of_singleton; reflexivity|tauto].
  - exists conv_ObjectId_m. split; [apply list_elem_of_singleton; reflexivity|tauto].
Qed.

(** C5, counterexample.  [oid = ObjectIdField(choices=[1, 2])] is an
    object-id field; [convert] returns a [SelectField] for it, because the
    choices test comes before the dispatch on the class name, and the mapping
    built for a schema holding it has the key [oid]. *)
Lemma C5_object_id_with_choices_is_converted :
  type_name (attrs oid_field) = "ObjectIdField" ∧
  convert (ModelConverter None) Tagged oid_field None
    = Ok (VCall "SelectField" []
            {[ "choices" := VList [VInt 1; VInt 2];
               "label" := VStr "oid"; "description" := VStr "";
               "validators" := VList []; "filters" := VList [];
               "default" := VNone ]}) ∧
  _fields Tagged !! "oid" = Some oid_field ∧
  ∃ fd, model_fields Tagged None None None None = Ok fd ∧ is_Some (fd !! "oid").
Proof.
  split; [reflexivity|]. split; [reflexivity|]. split; [reflexivity|].
  exists {[ "oid" := VCall "SelectField" []
            {[ "choices" := VList [VInt 1; VInt 2];
               "label" := VStr "oid"; "description" := VStr "";
               "validators" := VList []; "filters" := VList [];
               "default" := VNone ]} ]}.
  split; [reflexivity|]. eexists. reflexivity.
Qed.

(** C5, as the code has it.  For a geo-location, generic-reference or
    object-id field that declares no choices and has no self-conversion hook,
    converted by a [ModelConverter] (whatever converters the caller
    supplied), conversion yields nothing, and the mapping [model_fields]
    returns for a schema holding the field under [name] has no key [name]. *)
Theorem C5_unsupported_fields_are_omitted
    (c : option (gmap string callable)) (model : document) (key : string) (field : mfield) :
  type_name (attrs field) ∈ ["GeoLocationField"; "GenericReferenceField"; "ObjectIdField"] →
  to_form_field (attrs field) = None →
  truthy (choices (attrs field)) = false →
  (∀ field_args,
     validators_is_list (update_kwargs (base_kwargs field) field_args) = true →
     convert (ModelConverter c) model field field_args = Ok VNone) ∧
  (∀ field_args v,
     convert (ModelConverter c) model field field_args = Ok v → v = VNone) ∧
  (_fields model !! key = Some field →
   ∀ only exclude field_args converter fd,
     converter = None ∨ converter = Some (ModelConverter c) →
     model_fields model only exclude field_args converter = Ok fd →
     fd !! key = None).
Proof.
  intros (m & Hm & Hu)%unsupported_method Hh Hc.
  split; [|split].
  - intros field_args (l & Hl)%validators_is_list_spec.
    by apply (convert_unsupported c model field field_args m l).
  - intros field_args v. by apply (convert_unsupported_inv c model field field_args m).
  - intros Hkey only exclude field_args converter fd Hconv.
    rewrite model_fields_unfold. destruct (negb _); [discriminate|].
    intros Hfd.
    destruct (collect_Ok_lookup _ _ _ _ key Hfd) as [Hin Hout].
    destruct (decide (key ∈ select_names only exclude (field_names_of model)))
      as [Hk|Hk]; [|by rewrite (Hout Hk)].
    destruct (Hin Hk) as (v & Hv & ->).
    unfold convert_named in Hv. rewrite Hkey in Hv.
    assert (v = VNone) as ->; [|done].
    destruct Hconv as [->| ->]; unfold converter_or_default in Hv.
    + eapply (convert_unsupported_inv None);
        [exact Hh|exact Hc|exact Hm|exact Hu|exact Hv].
    + eapply (convert_unsupported_inv c);
        [exact Hh|exact Hc|exact Hm|exact Hu|exact Hv].
Qed.

Lemma C5_unsupported_fields_are_omitted_witness :
  convert (ModelConverter None) Plain (ObjectIdField (VStr "oid") VNone) None = Ok VNone.
Proof.
  refine (proj1 (C5_unsupported_fields_are_omitted None Plain "oid"
                   (ObjectIdField (VStr "oid") VNone) _ _ _) None _).
  - apply elem_of_cons; right. apply elem_of_cons; right.
    apply list_elem_of_singleton; reflexivity.
  - reflexivity.
  - reflexivity.
  - reflexivity.
Defined.


(** C8, counterexample.  With an empty [only] and [exclude = ["name"]] both
    supplied, [if only:] is false, the [elif exclude:] branch runs, and the
    mapping has the keys age and tags, none of which is in [only]; with
    [exclude = ["age"]] it has name and tags, so the result depends on
    [exclude]. *)
Lemma C8_empty_only_lets_exclude_apply :
  model_fields Person (Some []) (Some ["name"]) None None
    = Ok {[ "age" := Person_age_field; "tags" := Person_tags_field ]} ∧
  model_fields Person (Some []) (Some ["age"]) None None
    = Ok {[ "name" := Person_name_field; "tags" := Person_tags_field ]} ∧
  ({[ "age" := Person_age_field; "tags" := Person_tags_field ]} : kwargs_t) !! "age"
    = Some Person_age_field ∧
  "age" ∉ ([] : list string).
Proof.
  split; [reflexivity|]. split; [reflexivity|]. split; [reflexivity|].
  apply not_elem_of_nil.
Qed.

(** C8, as the code has it.  When a non-empty [only] is supplied together
    with an [exclude], [only] wins: the result is the same for every
    [exclude], and the keys of the returned mapping are exactly the schema's
    field names that are in [only] and convert to something.  (An empty
    [only] counts as not supplied.) *)
Theorem C8_only_wins_over_exclude model (only : list string) exclude exclude'
    field_args converter :
  only ≠ [] →
  model_fields model (Some only) exclude field_args converter
    = model_fields model (Some only) exclude' field_args converter ∧
  ∀ fd, model_fields model (Some only) exclude field_args converter = Ok fd →
    ∀ n, n ∈ dom fd ↔
         n ∈ field_names_of model ∧ n ∈ only ∧
         ∃ v, convert_named (converter_or_default converter) model
                (field_args_or_empty field_args) n = Ok v ∧ v ≠ VNone.
Proof.
  intros Honly. rewrite !model_fields_unfold, !select_names_only by done.
  split; [done|].
  destruct (negb _); [discriminate|].
  intros fd Hfd n.
  destruct (collect_Ok_lookup _ _ _ _ n Hfd) as [Hin Hout].
  rewrite elem_of_dom. split.
  - intros Hsome.
    destruct (decide (n ∈ filter (λ x, x ∈ only) (field_names_of model))) as [Hn|Hn].
    + destruct (Hin Hn) as (v & Hv & Hlook).
      apply list_elem_of_filter in Hn as [Ho Hf].
      split; [done|]. split; [done|]. exists v. split; [done|].
      apply is_not_None_true. destruct (is_not_None v); [done|].
      rewrite Hlook, lookup_empty in Hsome. by destruct Hsome.
    + rewrite (Hout Hn), lookup_empty in Hsome. by destruct Hsome.
  - intros (Hf & Ho & v & Hv & Hnn).
    destruct Hin as (v' & Hv' & Hlook); [by apply list_elem_of_filter|].
    rewrite Hv in Hv'. injection Hv' as <-.
    apply is_not_None_true in Hnn. rewrite Hnn in Hlook. by rewrite Hlook.
Qed.

Lemma C8_only_wins_over_exclude_witness :
  model_fields Person (Some ["name"]) (Some ["name"]) None None
    = model_fields Person (Some ["name"]) None None None.
Proof.
  refine (proj1 (C8_only_wins_over_exclude Person ["name"] (Some ["name"]) None
                   None None _)).
  intros H; discriminate H.
Defined.


(** ** Per-field overrides *)

(** Running the loop with a conversion that differs at one key [k] only,
    by a map [h] on the converted field there. *)
Lemma collect_alter (f g : string → result value) (k : string) (h : value → value)
    (names : list string) (acc : kwargs_t) :
  (∀ n, n ≠ k → g n = f n) →
  g k = map_result h (f k) →
  (∀ v, is_not_None (h v) = is_not_None v) →
  collect g names (alter h k acc) = map_result (alter h k) (collect f names acc).
Proof.
  intros Hne Hk Hh. revert acc.
  induction names as [|n names IH]; intros acc; simpl; [done|].
  destruct (decide (n = k)) as [->|Hn].
  - rewrite Hk. destruct (f k) as [v|e]; simpl; [|done].
    rewrite Hh. destruct (is_not_None v).
    + by rewrite insert_alter_eq, <- (alter_insert_eq acc k h v), IH.
    + apply IH.
  - rewrite (Hne n Hn). destruct (f n) as [v|e]; simpl; [|done].
    destruct (is_not_None v).
    + by rewrite <- alter_insert_ne, IH.
    + apply IH.
Qed.

(** [kwargs.update(field_args)] replaces whole entries, key by key. *)
Lemma update_kwargs_lookup (kwargs overrides : kwargs_t) (key : string) :
  update_kwargs kwargs (Some overrides) !! key
  = match overrides !! key with
    | Some v => Some v
    | None => kwargs !! key
    end.
Proof.
  unfold update_kwargs. destruct (dict_truthy overrides) eqn:Hd.
  - rewrite lookup_union. by destruct (overrides !! key), (kwargs !! key).
  - apply dict_truthy_false in Hd as ->. by rewrite lookup_empty.
Qed.

Lemma relabel_is_not_None (label v : value) :
  is_not_None (relabel label v) = is_not_None v.
Proof. by destruct v. Qed.

(** C9.  With [field_args = {"age": {"label": "Years"}}] and [age] an
    integer field (no choices, no self-conversion hook), the produced [age]
    field is the [IntegerField] with label [Years], the empty description,
    the validators appended by conversion only, the empty filter list and
    the field's declared default; without [field_args] it is the same apart
    from the label, which is the field name (an override replaces the base
    entry of its key and no other).  Every other name converts as
    it does without [field_args], and the whole mapping is the one built
    without [field_args] with the label of [age] replaced. *)
Theorem C9_label_override_is_per_key
    (c : option (gmap string callable)) (converter : option (gmap string entry))
    (model : document) (only exclude : option (list string)) (age : mfield) :
  converter_or_default converter = ModelConverter c →
  _fields model !! "age" = Some age →
  type_name (attrs age) = "IntField" →
  to_form_field (attrs age) = None →
  truthy (choices (attrs age)) = false →
  (∀ (overrides : kwargs_t) key,
     update_kwargs (base_kwargs age) (Some overrides) !! key
     = match overrides !! key with
       | Some v => Some v
       | None => base_kwargs age !! key
       end) ∧
  convert (ModelConverter c) model age (years_args !! "age")
    = Ok (VCall "IntegerField" []
            {[ "label" := VStr "Years"; "description" := VStr "";
               "validators" := VList (required_validators age ++ range_validators age);
               "filters" := VList []; "default" := default_value (attrs age) ]}) ∧
  convert (ModelConverter c) model age None
    = Ok (VCall "IntegerField" []
            {[ "label" := name (attrs age); "description" := VStr "";
               "validators" := VList (required_validators age ++ range_validators age);
               "filters" := VList []; "default" := default_value (attrs age) ]}) ∧
  (∀ key, key ≠ "age" →
     convert_named (ModelConverter c) model (field_args_or_empty (Some years_args)) key
     = convert_named (ModelConverter c) model (field_args_or_empty None) key) ∧
  model_fields model only exclude (Some years_args) converter
    = map_result (alter (relabel (VStr "Years")) "age")
        (model_fields model only exclude None converter).
Proof.
  intros Hconv Hage Ht Hh Hc.
  assert (Hm : type_name (attrs age) ∈ _converter_for conv_Int_m)
    by (rewrite Ht; apply list_elem_of_singleton; reflexivity).
  assert (H1 : convert (ModelConverter c) model age (years_args !! "age")
    = Ok (VCall "IntegerField" []
            {[ "label" := VStr "Years"; "description" := VStr "";
               "validators" := VList (required_validators age ++ range_validators age);
               "filters" := VList []; "default" := default_value (attrs age) ]})).
  { rewrite (convert_passes c model age _ conv_Int_m []); try done. }
  assert (H0 : convert (ModelConverter c) model age None
    = Ok (VCall "IntegerField" []
            {[ "label" := name (attrs age); "description" := VStr "";
               "validators" := VList (required_validators age ++ range_validators age);
               "filters" := VList []; "default" := default_value (attrs age) ]})).
  { rewrite (convert_passes c model age _ conv_Int_m []); try done. }
  assert (Hother : ∀ key, key ≠ "age" →
     convert_named (ModelConverter c) model (field_args_or_empty (Some years_args)) key
     = convert_named (ModelConverter c) model (field_args_or_empty None) key).
  { intros key Hkey. unfold convert_named.
    change (field_args_or_empty (Some years_args)) with years_args.
    change (field_args_or_empty None) with (∅ : gmap string kwargs_t).
    unfold years_args. by rewrite lookup_singleton_ne, lookup_empty. }
  split; [apply update_kwargs_lookup|].
  split; [exact H1|]. split; [exact H0|]. split; [exact Hother|].
  rewrite !model_fields_unfold, Hconv. destruct (negb _); [done|].
  rewrite <- (alter_empty (relabel (VStr "Years")) "age") at 1.
  apply collect_alter.
  - exact Hother.
  - unfold convert_named. rewrite Hage.
    change (field_args_or_empty (Some years_args)) with years_args.
    change (field_args_or_empty None) with (∅ : gmap string kwargs_t).
    rewrite lookup_empty, H1, H0. reflexivity.
  - apply relabel_is_not_None.
Qed.

Lemma C9_label_override_is_per_key_witness :
  model_fields Person None None (Some years_args) None
    = map_result (alter (relabel (VStr "Years")) "age")
        (model_fields Person None None None None).
Proof.
  refine (proj2 (proj2 (proj2 (proj2 (C9_label_override_is_per_key None None Person
                   None None (IntField (VStr "age") false (VInt 0) VNone) _ _ _ _ _))))).
  - reflexivity.
  - reflexivity.
  - reflexivity.
  - reflexivity.
  - reflexivity.
Defined.


(** ** Names no method handles *)

Lemma default_names_method (n : string) :
  n ∈ default_names → ∃ m, n ∈ _converter_for m.
Proof.
  unfold default_names. intros (m & Hn & _)%list_elem_of_bind. eauto.
Qed.

Lemma ModelConverter_unregistered (n : string) :
  n ∉ default_names → ModelConverter None !! n = None.
Proof.
  intros Hn.
  assert (Hall : Forall (λ x, x ≠ n) default_names)
    by (apply Forall_forall; intros x Hx ->; done).
  unfold default_names, dir_self in Hall. cbn [mbind list_bind app _converter_for] in Hall.
  unfold ModelConverter, dir_self, register. cbn [foldl _converter_for].
  repeat (apply Forall_cons in Hall as [? Hall]).
  rewrite !lookup_insert_ne by done. apply lookup_empty.
Qed.

Lemma ModelConverter_lookup_other (c : option (gmap string callable)) (n : string) :
  n ∉ default_names →
  ModelConverter c !! n = Supplied <$> (from_option id ∅ c !! n).
Proof.
  intros Hn. destruct c as [c|]; simpl.
  - rewrite ModelConverter_union, lookup_union, (ModelConverter_unregistered n Hn).
    by rewrite (left_id_L None _), lookup_fmap.
  - by rewrite (ModelConverter_unregistered n Hn), lookup_empty.
Qed.


(** ** Sizes and well-formedness of nested schemas *)

Lemma map_fold_sum_ge (m : gmap string nat) (k : string) (x : nat) :
  m !! k = Some x → (x ≤ map_fold (λ _ n acc, n + acc) 0 m)%nat.
Proof.
  intros Hk. rewrite (map_fold_delete_L _ _ k x m); [lia| |done].
  intros. lia.
Qed.

Lemma field_size_lookup nm mro order (fs : gmap string mfield) (k : string) f :
  fs !! k = Some f → (field_size f < document_size (Document nm mro order fs))%nat.
Proof.
  intros Hk. cbn [document_size].
  assert ((field_size <$> fs) !! k = Some (field_size f)) as Hs
    by (by rewrite lookup_fmap, Hk).
  apply map_fold_sum_ge in Hs. lia.
Qed.

Lemma wf_document_inv nm mro order (fs : gmap string mfield) :
  wf_document (Document nm mro order fs) = true →
  is_document (Document nm mro order fs) = true ∧
  (∀ n, n ∈ field_names_of (Document nm mro order fs) → is_Some (fs !! n)) ∧
  (∀ k f, fs !! k = Some f → wf_field f = true).
Proof.
  cbn [wf_document]. rewrite !andb_true_iff.
  intros [[Hmro Horder] Hfs]. split; [exact Hmro|]. split.
  - intros n. unfold field_names_of. cbn [_fields_order _fields].
    destruct order as [o|].
    + rewrite forallb_forall in Horder. intros Hn%list_elem_of_In.
      apply Horder in Hn. by apply bool_decide_eq_true in Hn.
    + intros ((k & f) & -> & Hk%elem_of_map_to_list)%list_elem_of_fmap. by exists f.
  - apply bool_decide_eq_true in Hfs. intros k f Hk.
    apply (map_Forall_lookup_1 _ _ k (wf_field f)) in Hfs; [done|].
    by rewrite lookup_fmap, Hk.
Qed.

Lemma args_ok_inv field field_args :
  args_ok field field_args = true →
  (∃ l, update_kwargs (base_kwargs field) field_args !! "validators" = Some (VList l)) ∧
  (type_name (attrs field) = "ReferenceField" →
   update_kwargs (base_kwargs field) field_args !! "model" = None).
Proof.
  unfold args_ok. cbv zeta. rewrite andb_true_iff, orb_true_iff.
  intros [Hv Hm]. split; [by apply validators_is_list_spec|].
  intros Ht. rewrite Ht in Hm. destruct Hm as [Hm|Hm]; [discriminate|].
  by destruct (_ !! "model").
Qed.

(** Without caller overrides the keyword arguments are always well-typed. *)
Lemma args_ok_None field : args_ok field None = true.
Proof.
  unfold args_ok, validators_is_list, update_kwargs, base_kwargs.
  destruct (negb _); reflexivity.
Qed.

Lemma args_ok_empty field : args_ok field (Some ∅) = true.
Proof. apply args_ok_None. Qed.

Lemma supplied_total_None : supplied_total None.
Proof. intros cs n fn H; discriminate H. Qed.


(** ** Well-formed schemas convert without raising *)

Lemma finish_total (m : method) field (kwargs : kwargs_t) :
  (m = conv_Reference_m → kwargs !! "model" = None) →
  ∃ v, finish m field kwargs = Ok v.
Proof.
  intros Hm. unfold finish, call, call_with.
  destruct m; eauto. rewrite Hm by done. eauto.
Qed.

Lemma is_list_type_method (m : method) (cls : string) :
  cls ∈ _converter_for m →
  is_list_type cls = match m with conv_List_m | conv_SortedList_m => true | _ => false end ∧
  String.eqb cls "EmbeddedDocumentField"
    = match m with conv_EmbeddedDocument_m => true | _ => false end ∧
  (m = conv_Reference_m → cls = "ReferenceField").
Proof.
  intros H. destruct m; apply list_elem_of_singleton in H as ->;
    (split; [reflexivity|split; [reflexivity|]]); intros [=]; reflexivity.
Qed.

Lemma wf_total (n : nat) :
  (∀ field, (field_size field < n)%nat → wf_field field = true →
     ∀ c model field_args, supplied_total c → args_ok field field_args = true →
       ∃ v, convert (ModelConverter c) model field field_args = Ok v) ∧
  (∀ model, (document_size model < n)%nat → wf_document model = true →
     ∀ only exclude field_args c, supplied_total c →
       (∀ key field, _fields model !! key = Some field →
          args_ok field (field_args_or_empty field_args !! key) = true) →
       ∃ fd, model_fields model only exclude field_args (Some (ModelConverter c)) = Ok fd).
Proof.
  induction n as [|n [IHf IHd]]; [split; intros; lia|].
  split.
  - intros [a element embedded] Hsize Hwf c model field_args Hc Hargs.
    cbn [field_size] in Hsize. cbn [wf_field] in Hwf.
    apply andb_true_iff in Hwf as [Hhook Hwf].
    destruct (to_form_field a) eqn:Hh; [discriminate|]. clear Hhook.
    destruct (args_ok_inv _ _ Hargs) as [[l Hl] Hmodel].
    rewrite convert_unfold. cbv zeta.
    rewrite (required_step _ _ l) by done. rewrite bind_Ok; cbv beta.
    cbn [attrs] in *. rewrite Hh.
    destruct (truthy (choices a)) eqn:Hch; [unfold call; eauto|].
    cbn [orb] in Hwf.
    destruct (decide (type_name a ∈ default_names)) as [Hin|Hout].
    + apply default_names_method in Hin as [m Hm].
      rewrite (ModelConverter_bound c m _ Hm).
      destruct (is_list_type_method m _ Hm) as (Hlist & Hemb & Href).
      rewrite Hlist, Hemb in Hwf.
      destruct (passes_kwargs m) eqn:Hp.
      * rewrite (passes_kwargs_spec _ _ m _ _ _ (l ++ required_validators (Field a element embedded)))
          by (done || apply lookup_insert_eq).
        apply finish_total. intros Hmr.
        rewrite lookup_insert_ne, lookup_insert_ne by done.
        apply Hmodel, Href, Hmr.
      * destruct m; try discriminate Hp; cbn [call_converter].
        -- (* conv_EmbeddedDocument *)
           destruct embedded as [d|]; [|discriminate].
           cbn [from_option] in Hsize.
           unfold conv_EmbeddedDocument. cbn [document_type_obj].
           unfold model_form. rewrite model_fields_default_converter.
           destruct (IHd d ltac:(lia) Hwf None None (Some ∅) None
                       supplied_total_None) as [fd ->].
           { intros key f _. apply args_ok_None. }
           rewrite !bind_Ok. unfold call. eauto.
        -- unfold conv_GenericReference. eauto.
        -- unfold conv_GeoLocation. eauto.
        -- (* conv_List *)
           destruct element as [e|]; [|discriminate].
           cbn [from_option] in Hsize.
           rewrite conv_List_unfold. cbn [inner_field].
           destruct (IHf e ltac:(lia) Hwf c model (Some ∅) Hc
                       (args_ok_empty e)) as [v ->].
           rewrite bind_Ok. eauto.
        -- unfold conv_ObjectId. eauto.
        -- (* conv_SortedList *)
           destruct element as [e|]; [|discriminate].
           cbn [from_option] in Hsize.
           unfold conv_SortedList. rewrite conv_List_unfold. cbn [inner_field].
           destruct (IHf e ltac:(lia) Hwf c model (Some ∅) Hc
                       (args_ok_empty e)) as [v ->].
           rewrite bind_Ok. eauto.
    + rewrite (ModelConverter_lookup_other c _ Hout).
      destruct (from_option id ∅ c !! type_name a) as [fn|] eqn:Hfn; cbn [fmap option_fmap option_map];
        [|eauto].
      cbn [call_converter].
      destruct c as [cs|]; cbn [from_option] in Hfn;
        [|by rewrite lookup_empty in Hfn].
      apply (Hc cs (type_name a) fn eq_refl Hfn).
  - intros [nm mro order fs] Hsize Hwf only exclude field_args c Hc Hargs.
    destruct (wf_document_inv _ _ _ _ Hwf) as (Hdoc & Hnames & Hfields).
    rewrite model_fields_unfold, Hdoc. cbn [negb].
    apply collect_total. intros k Hk%select_names_subseteq.
    destruct (Hnames k Hk) as [f Hf].
    unfold convert_named. cbn [_fields] in *. rewrite Hf.
    apply (IHf f).
    + pose proof (field_size_lookup nm mro order fs k f Hf). lia.
    + by apply (Hfields k).
    + exact Hc.
    + by apply Hargs.
Qed.



(** C6, counterexample.  [Article] is a document class (BaseDocument is
    among its ancestors) with [author = ReferenceField(User)].  With
    [field_args = {"author": {"model": Other}}], [conv_Reference] calls
    [ModelSelectField(model=field.document_type, **kwargs)] with [model]
    also in [kwargs], and [model_fields] raises a type error. *)
Lemma C6_document_class_raises_type_error :
  is_document Article = true ∧
  model_fields Article None None (Some model_override) None
    = Raise (TypeError "got multiple values for keyword argument") ∧
  model_form Article ModelForm None None (Some model_override) None
    = Raise (TypeError "got multiple values for keyword argument").
Proof. split; [reflexivity|]. split; reflexivity. Qed.

(** C6, as the code has it.  [model_fields] (and hence [model_form]) raises
    its type error whenever the given class is not a document class, and
    returns a mapping only for document classes.  For a document class that
    is well-formed (no self-conversion hooks, list fields with an element
    field, embedded schemas well-formed document classes, the declared field
    order naming registered fields), with well-typed keyword overrides and
    caller-supplied converters that return, it does not raise and returns
    the field mapping. *)
Theorem C6_type_error_for_non_documents
    (model : document) (base_class : value) (only exclude : option (list string))
    (field_args : option (gmap string kwargs_t))
    (converter : option (gmap string entry)) (c : option (gmap string callable)) :
  converter_or_default converter = ModelConverter c →
  (is_document model = false →
     model_fields model only exclude field_args converter
       = Raise (TypeError "model must be a mongoengine Document schema") ∧
     model_form model base_class only exclude field_args converter
       = Raise (TypeError "model must be a mongoengine Document schema")) ∧
  (∀ fd, model_fields model only exclude field_args converter = Ok fd →
         is_document model = true) ∧
  (wf_document model = true →
   supplied_total c →
   (∀ key field, _fields model !! key = Some field →
      args_ok field (field_args_or_empty field_args !! key) = true) →
   ∃ fd, model_fields model only exclude field_args converter = Ok fd ∧
         model_form model base_class only exclude field_args converter
           = Ok (form_type model base_class fd)).
Proof.
  intros Hconv.
  assert (Heq : model_fields model only exclude field_args converter
                = model_fields model only exclude field_args (Some (ModelConverter c)))
    by (rewrite !model_fields_unfold; unfold converter_or_default at 2; by rewrite Hconv).
  split; [|split].
  - intros Hdoc. unfold model_form. rewrite model_fields_unfold, Hdoc. done.
  - intros fd. rewrite model_fields_unfold.
    destruct (is_document model); [done|discriminate].
  - intros Hwf Hc Hargs.
    destruct (proj2 (wf_total (S (document_size model))) model ltac:(lia) Hwf
                only exclude field_args c Hc Hargs) as [fd Hfd].
    exists fd. unfold model_form. rewrite Heq, Hfd. done.
Qed.

Lemma C6_type_error_for_non_documents_witness :
  (∃ fd, model_fields Person None None None None = Ok fd ∧
         model_form Person ModelForm None None None None
           = Ok (form_type Person ModelForm fd)) ∧
  model_fields NotADocument None None None None
    = Raise (TypeError "model must be a mongoengine Document schema").
Proof.
  split.
  - refine (proj2 (proj2 (C6_type_error_for_non_documents Person ModelForm None None
                            None None None _)) _ _ _).
    + reflexivity.
    + reflexivity.
    + intros cs n fn H; discriminate H.
    + intros key field _. unfold field_args_or_empty.
      rewrite lookup_empty. apply args_ok_None.
  - refine (proj1 (proj1 (C6_type_error_for_non_documents NotADocument ModelForm None
                            None None None None _) _)).
    + reflexivity.
    + reflexivity.
Defined.

(** * Further properties of the module *)


(** ** Dispatch: hooks, caller-supplied converters, unregistered classes *)

(** [convert] up to the dispatch, for a field without choices. *)
Lemma convert_dispatch converters model field field_args (l : list value) :
  truthy (choices (attrs field)) = false →
  update_kwargs (base_kwargs field) field_args !! "validators" = Some (VList l) →
  convert converters model field field_args
  = (let kwargs := <["validators" := VList (l ++ required_validators field)]>
                     (update_kwargs (base_kwargs field) field_args) in
     match to_form_field (attrs field) with
     | Some hook => hook (__name__ model) kwargs
     | None =>
         match converters !! type_name (attrs field) with
         | Some conv =>
             call_converter (convert converters)
               (λ embedded, model_form embedded ModelForm None None (Some ∅) None)
               conv model field kwargs
         | None => Ok VNone
         end
     end).
Proof.
  intros Hc Hl. rewrite convert_unfold. cbv zeta.
  rewrite (required_step _ _ l) by done. rewrite bind_Ok; cbv beta.
  by rewrite Hc.
Qed.

(** Whatever the dispatch finds, a field whose class has no registry entry
    converts to nothing if it converts at all. *)
Lemma convert_no_entry_inv converters model field field_args v :
  truthy (choices (attrs field)) = false →
  to_form_field (attrs field) = None →
  converters !! type_name (attrs field) = None →
  convert converters model field field_args = Ok v → v = VNone.
Proof.
  intros Hc Hh Hreg. rewrite convert_unfold. cbv zeta.
  intros (kwargs & _ & H)%bind_Ok_inv. revert H.
  rewrite Hc, Hh, Hreg. by intros [= <-].
Qed.

(** X1.  A field whose class name no tagged method handles and for which
    the caller registered nothing (no choices, no self-conversion hook)
    converts to nothing, without an error, and [model_fields] leaves its name
    out of the mapping. *)
Theorem X1_unregistered_class_is_omitted
    (c : option (gmap string callable)) (converter : option (gmap string entry))
    (model : document) (key : string) (field : mfield) :
  type_name (attrs field) ∉ default_names →
  from_option id ∅ c !! type_name (attrs field) = None →
  to_form_field (attrs field) = None →
  truthy (choices (attrs field)) = false →
  converter_or_default converter = ModelConverter c →
  (∀ field_args,
     validators_is_list (update_kwargs (base_kwargs field) field_args) = true →
     convert (ModelConverter c) model field field_args = Ok VNone) ∧
  (_fields model !! key = Some field →
   ∀ only exclude field_args fd,
     model_fields model only exclude field_args converter = Ok fd →
     fd !! key = None).
Proof.
  intros Hout Hc Hh Hch Hconv.
  assert (Hreg : ModelConverter c !! type_name (attrs field) = None)
    by (by rewrite (ModelConverter_lookup_other c _ Hout), Hc).
  split.
  - intros field_args (l & Hl)%validators_is_list_spec.
    rewrite (convert_dispatch _ _ _ _ l) by done. cbv zeta. by rewrite Hh, Hreg.
  - intros Hkey only exclude field_args fd.
    rewrite model_fields_unfold, Hconv. destruct (negb _); [discriminate|].
    intros Hfd.
    destruct (collect_Ok_lookup _ _ _ _ key Hfd) as [Hin Hnotin].
    destruct (decide (key ∈ select_names only exclude (field_names_of model)))
      as [Hk|Hk]; [|by rewrite (Hnotin Hk)].
    destruct (Hin Hk) as (v & Hv & ->).
    unfold convert_named in Hv. rewrite Hkey in Hv.
    by rewrite (convert_no_entry_inv _ _ _ _ v Hch Hh Hreg Hv).
Qed.

Lemma X1_unregistered_class_is_omitted_witness :
  convert (ModelConverter None) Place point_field None = Ok VNone ∧
  model_fields Place None None None None = Ok ∅.
Proof.
  destruct (X1_unregistered_class_is_omitted None None Place "location" point_field)
    as [Hconvert Hfields].
  - intros H. vm_compute in H.
    repeat (apply elem_of_cons in H as [H|H]; [discriminate H|]).
    by apply elem_of_nil in H.
  - reflexivity.
  - reflexivity.
  - reflexivity.
  - reflexivity.
  - split; [apply Hconvert; reflexivity|reflexivity].
Defined.

(** X2.  A function the caller registered under a class name that no tagged
    method handles is what [convert] calls for a field of that class (no
    choices, no hook): it receives the schema, the field and the keyword
    arguments with the caller's overrides applied and the required validator
    appended, and its result is the result of [convert]. *)
Theorem X2_supplied_converter_is_called
    (cs : gmap string callable) (fn : callable) (model : document) (field : mfield)
    (field_args : option kwargs_t) (l : list value) :
  type_name (attrs field) ∉ default_names →
  cs !! type_name (attrs field) = Some fn →
  to_form_field (attrs field) = None →
  truthy (choices (attrs field)) = false →
  update_kwargs (base_kwargs field) field_args !! "validators" = Some (VList l) →
  convert (ModelConverter (Some cs)) model field field_args
  = fn model field
      (<["validators" := VList (l ++ required_validators field)]>
         (update_kwargs (base_kwargs field) field_args)).
Proof.
  intros Hout Hcs Hh Hch Hl.
  rewrite (convert_dispatch _ _ _ _ l) by done. cbv zeta. rewrite Hh.
  rewrite (ModelConverter_lookup_other (Some cs) _ Hout). cbn [from_option id].
  by rewrite Hcs.
Qed.

Lemma X2_supplied_converter_is_called_witness :
  convert (ModelConverter (Some point_converters)) Place point_field None
  = Ok (VCall "PointWidgetField" []
          {[ "label" := VStr "location"; "description" := VStr "";
             "validators" := VList [VCall "Required" [] ∅];
             "filters" := VList []; "default" := VNone ]}).
Proof.
  rewrite (X2_supplied_converter_is_called point_converters point_converter
             Place point_field None []).
  - reflexivity.
  - intros H. vm_compute in H.
    repeat (apply elem_of_cons in H as [H|H]; [discriminate H|]).
    by apply elem_of_nil in H.
  - reflexivity.
  - reflexivity.
  - reflexivity.
  - reflexivity.
Defined.

(** X3.  A field that has a [to_form_field] method and declares no choices
    is converted by that method alone, whatever the registry holds for its
    class: the result of [convert] is the method's result on the schema and
    the keyword arguments (overrides applied, required validator
    appended). *)
Theorem X3_self_conversion_precedes_registry
    (converters : gmap string entry) (model : document) (field : mfield)
    (field_args : option kwargs_t) (hook : string → kwargs_t → result value)
    (l : list value) :
  to_form_field (attrs field) = Some hook →
  truthy (choices (attrs field)) = false →
  update_kwargs (base_kwargs field) field_args !! "validators" = Some (VList l) →
  convert converters model field field_args
  = hook (__name__ model)
      (<["validators" := VList (l ++ required_validators field)]>
         (update_kwargs (base_kwargs field) field_args)).
Proof.
  intros Hh Hch Hl. rewrite (convert_dispatch _ _ _ _ l) by done.
  cbv zeta. by rewrite Hh.
Qed.

Lemma X3_self_conversion_precedes_registry_witness :
  convert (ModelConverter None) Person self_converting_field None
  = Ok (VCall "SlugField" []
          {[ "label" := VStr "slug"; "description" := VStr "";
             "validators" := VList [VCall "Required" [] ∅];
             "filters" := VList []; "default" := VNone ]}).
Proof.
  rewrite (X3_self_conversion_precedes_registry (ModelConverter None) Person
             self_converting_field None
             (λ _ kwargs, Ok (VCall "SlugField" [] kwargs)) []);
    reflexivity.
Defined.

(** X4.  The registry of a converter holds exactly the class names of the
    tagged methods together with the names the caller supplied, and an empty
    caller mapping gives the default registry. *)
Theorem X4_registry_domain (c : option (gmap string callable)) :
  dom (ModelConverter c) = list_to_set default_names ∪ dom (from_option id ∅ c) ∧
  ModelConverter (Some ∅) = ModelConverter None.
Proof.
  split; [|reflexivity].
  apply set_eq. intros n.
  rewrite elem_of_union, elem_of_list_to_set, !elem_of_dom.
  destruct (decide (n ∈ default_names)) as [Hin|Hout].
  - split; [tauto|]. intros _.
    destruct (default_names_method n Hin) as [m Hm].
    rewrite (ModelConverter_bound c m n Hm). eauto.
  - rewrite (ModelConverter_lookup_other c n Hout), fmap_is_Some. tauto.
Qed.


(** ** The form field of each class *)

Lemma truthy_py_or (a b : value) : truthy (py_or a b) = truthy a || truthy b.
Proof. unfold py_or. by destruct (truthy a) eqn:Ha; rewrite ?Ha. Qed.

(** X5.  URL and email fields (no choices, no hook) always convert to a
    single-line [TextField], also when [max_length] is -1; the format
    validator ([URL] or [Email]) comes after the caller's and the required
    validator and before the length validator, which is appended exactly when
    [max_length] or [min_length] is true, with -1 for the bound that is
    not. *)
Theorem X5_url_and_email_fields
    (c : option (gmap string callable)) (model : document) (field : mfield)
    (field_args : option kwargs_t) (l : list value) (format : string) :
  (type_name (attrs field) = "URLField" ∧ format = "URL") ∨
  (type_name (attrs field) = "EmailField" ∧ format = "Email") →
  to_form_field (attrs field) = None →
  truthy (choices (attrs field)) = false →
  update_kwargs (base_kwargs field) field_args !! "validators" = Some (VList l) →
  convert (ModelConverter c) model field field_args
  = Ok (VCall "TextField" []
          (<["validators" :=
               VList (l ++ required_validators field ++
                      VCall format [] ∅ ::
                      (if truthy (max_length (attrs field))
                          || truthy (min_length (attrs field))
                       then [VCall "Length" []
                               {[ "max" := py_or (max_length (attrs field)) (VInt (-1));
                                  "min" := py_or (min_length (attrs field)) (VInt (-1)) ]}]
                       else []))]>
             (update_kwargs (base_kwargs field) field_args))).
Proof.
  intros Ht Hh Hch Hl. rewrite <- truthy_py_or.
  destruct Ht as [[Ht ->]|[Ht ->]].
  - rewrite (convert_passes c model field field_args conv_URL_m l); try done.
    rewrite Ht. apply list_elem_of_singleton. reflexivity.
  - rewrite (convert_passes c model field field_args conv_Email_m l); try done.
    rewrite Ht. apply list_elem_of_singleton. reflexivity.
Qed.

Lemma X5_url_and_email_fields_witness :
  convert (ModelConverter None) Person homepage_field None
  = Ok (VCall "TextField" []
          {[ "label" := VStr "homepage"; "description" := VStr "";
             "validators" := VList [VCall "URL" [] ∅;
                                    VCall "Length" []
                                      {[ "max" := VInt (-1); "min" := VInt (-1) ]}];
             "filters" := VList []; "default" := VNone ]}).
Proof.
  rewrite (X5_url_and_email_fields None Person homepage_field None [] "URL").
  - reflexivity.
  - left. split; reflexivity.
  - reflexivity.
  - reflexivity.
  - reflexivity.
Defined.

(** X6.  Integer, float and decimal fields (no choices, no hook) convert to
    [IntegerField], [FloatField] and [DecimalField].  A [NumberRange]
    validator is appended exactly when [max_value] or [min_value] is true
    (so not when the only declared bound is 0); it carries both attributes as
    declared, [None] for an absent bound. *)
Theorem X6_numeric_fields
    (c : option (gmap string callable)) (model : document) (field : mfield)
    (field_args : option kwargs_t) (l : list value) (form_class : string) :
  (type_name (attrs field) = "IntField" ∧ form_class = "IntegerField") ∨
  (type_name (attrs field) = "FloatField" ∧ form_class = "FloatField") ∨
  (type_name (attrs field) = "DecimalField" ∧ form_class = "DecimalField") →
  to_form_field (attrs field) = None →
  truthy (choices (attrs field)) = false →
  update_kwargs (base_kwargs field) field_args !! "validators" = Some (VList l) →
  convert (ModelConverter c) model field field_args
  = Ok (VCall form_class []
          (<["validators" :=
               VList (l ++ required_validators field ++
                      (if truthy (max_value (attrs field))
                          || truthy (min_value (attrs field))
                       then [VCall "NumberRange" []
                               {[ "max" := max_value (attrs field);
                                  "min" := min_value (attrs field) ]}]
                       else []))]>
             (update_kwargs (base_kwargs field) field_args))).
Proof.
  intros Ht Hh Hch Hl. rewrite <- truthy_py_or.
  destruct Ht as [[Ht ->]|[[Ht ->]|[Ht ->]]].
  - rewrite (convert_passes c model field field_args conv_Int_m l); try done.
    rewrite Ht. apply list_elem_of_singleton. reflexivity.
  - rewrite (convert_passes c model field field_args conv_Float_m l); try done.
    rewrite Ht. apply list_elem_of_singleton. reflexivity.
  - rewrite (convert_passes c model field field_args conv_Decimal_m l); try done.
    rewrite Ht. apply list_elem_of_singleton. reflexivity.
Qed.

Lemma X6_numeric_fields_witness :
  convert (ModelConverter None) Person (IntField (VStr "n") false (VInt 1) VNone) None
  = Ok (VCall "IntegerField" []
          {[ "label" := VStr "n"; "description" := VStr "";
             "validators" := VList [VCall "NumberRange" []
                                      {[ "max" := VNone; "min" := VInt 1 ]}];
             "filters" := VList []; "default" := VNone ]}).
Proof.
  rewrite (X6_numeric_fields None Person (IntField (VStr "n") false (VInt 1) VNone)
             None [] "IntegerField").
  - reflexivity.
  - left. split; reflexivity.
  - reflexivity.
  - reflexivity.
  - reflexivity.
Defined.

(** X7.  Boolean, date-time and dict fields (no choices, no hook) convert to
    [BooleanField], [DateTimeField] and [TextAreaField] with no validator of
    their own; a binary field converts to [TextAreaField] with a [Length]
    validator carrying [max_bytes] as its maximum exactly when [max_bytes] is
    true. *)
Theorem X7_plain_and_binary_fields
    (c : option (gmap string callable)) (model : document) (field : mfield)
    (field_args : option kwargs_t) (l : list value)
    (form_class : string) (own : list value) :
  (type_name (attrs field) = "BooleanField" ∧ form_class = "BooleanField" ∧ own = []) ∨
  (type_name (attrs field) = "DateTimeField" ∧ form_class = "DateTimeField" ∧ own = []) ∨
  (type_name (attrs field) = "DictField" ∧ form_class = "TextAreaField" ∧ own = []) ∨
  (type_name (attrs field) = "BinaryField" ∧ form_class = "TextAreaField" ∧
   own = if truthy (max_bytes (attrs field))
         then [VCall "Length" [] {[ "max" := max_bytes (attrs field) ]}]
         else []) →
  to_form_field (attrs field) = None →
  truthy (choices (attrs field)) = false →
  update_kwargs (base_kwargs field) field_args !! "validators" = Some (VList l) →
  convert (ModelConverter c) model field field_args
  = Ok (VCall form_class []
          (<["validators" := VList (l ++ required_validators field ++ own)]>
             (update_kwargs (base_kwargs field) field_args))).
Proof.
  intros Ht Hh Hch Hl.
  destruct Ht as [(Ht & -> & ->)|[(Ht & -> & ->)|[(Ht & -> & ->)|(Ht & -> & ->)]]].
  - rewrite (convert_passes c model field field_args conv_Boolean_m l); try done.
    rewrite Ht. apply list_elem_of_singleton. reflexivity.
  - rewrite (convert_passes c model field field_args conv_DateTime_m l); try done.
    rewrite Ht. apply list_elem_of_singleton. reflexivity.
  - rewrite (convert_passes c model field field_args conv_Dict_m l); try done.
    rewrite Ht. apply list_elem_of_singleton. reflexivity.
  - rewrite (convert_passes c model field field_args conv_Binary_m l); try done.
    rewrite Ht. apply list_elem_of_singleton. reflexivity.
Qed.

Lemma X7_plain_and_binary_fields_witness :
  convert (ModelConverter None) Person data_field None
  = Ok (VCall "TextAreaField" []
          {[ "label" := VStr "data"; "description" := VStr "";
             "validators" := VList [VCall "Length" [] {[ "max" := VInt 1024 ]}];
             "filters" := VList []; "default" := VNone ]}).
Proof.
  rewrite (X7_plain_and_binary_fields None Person data_field None [] "TextAreaField"
             [VCall "Length" [] {[ "max" := VInt 1024 ]}]).
  - reflexivity.
  - right; right; right. split; [reflexivity|]. split; reflexivity.
  - reflexivity.
  - reflexivity.
  - reflexivity.
Defined.

(** X8.  A reference field (no choices, no hook) converts to a
    [ModelSelectField] whose [model] keyword is [field.document_type] and
    whose other keywords are the ones [convert] built; if the caller's
    overrides already hold a [model] keyword the call is refused and
    [convert] raises a type error. *)
Theorem X8_reference_field
    (c : option (gmap string callable)) (model : document) (field : mfield)
    (field_args : option kwargs_t) (l : list value) :
  type_name (attrs field) = "ReferenceField" →
  to_form_field (attrs field) = None →
  truthy (choices (attrs field)) = false →
  update_kwargs (base_kwargs field) field_args !! "validators" = Some (VList l) →
  convert (ModelConverter c) model field field_args
  = match update_kwargs (base_kwargs field) field_args !! "model" with
    | Some _ => Raise (TypeError "got multiple values for keyword argument")
    | None =>
        Ok (VCall "ModelSelectField" []
              (<["model" := document_type (attrs field)]>
                 (<["validators" := VList (l ++ required_validators field)]>
                    (update_kwargs (base_kwargs field) field_args))))
    end.
Proof.
  intros Ht Hh Hch Hl.
  rewrite (convert_passes c model field field_args conv_Reference_m l); try done.
  - unfold finish, call_with. cbn [method_validators].
    rewrite app_nil_r, lookup_insert_ne by done. reflexivity.
  - rewrite Ht. apply list_elem_of_singleton. reflexivity.
Qed.

Lemma X8_reference_field_witness :
  convert (ModelConverter None) Article (ReferenceField (VStr "author") "User") None
  = Ok (VCall "ModelSelectField" []
          {[ "model" := VClass "User";
             "label" := VStr "author"; "description" := VStr "";
             "validators" := VList []; "filters" := VList [];
             "default" := VNone ]}).
Proof.
  rewrite (X8_reference_field None Article (ReferenceField (VStr "author") "User")
             None []); reflexivity.
Defined.


(** ** Keyword arguments on their way to the form field *)

(** X9.  On every path that builds the form field from the keyword
    arguments (a field with choices, or one of a class whose method passes
    them on), each keyword other than [validators], [choices] and [model]
    reaches the form field as [convert] set it up: the caller's override for
    that key if there is one, also for keys [convert] knows nothing about,
    else the base value. *)
Theorem X9_keywords_reach_the_form_field
    (c : option (gmap string callable)) (model : document) (field : mfield)
    (field_args : option kwargs_t) (m : method) (l : list value)
    (key cls : string) (args : list value) (kwargs : kwargs_t) :
  to_form_field (attrs field) = None →
  update_kwargs (base_kwargs field) field_args !! "validators" = Some (VList l) →
  truthy (choices (attrs field)) = true ∨
  (truthy (choices (attrs field)) = false ∧
   type_name (attrs field) ∈ _converter_for m ∧ passes_kwargs m = true) →
  convert (ModelConverter c) model field field_args = Ok (VCall cls args kwargs) →
  key ≠ "validators" → key ≠ "choices" → key ≠ "model" →
  kwargs !! key = update_kwargs (base_kwargs field) field_args !! key.
Proof.
  intros Hh Hl Hcase Hconv Hk1 Hk2 Hk3.
  destruct Hcase as [Hch|(Hch & Hm & Hp)].
  - rewrite (convert_choices _ _ _ _ l Hch Hl) in Hconv.
    injection Hconv as _ _ <-. by rewrite !lookup_insert_ne.
  - rewrite (convert_passes c model field field_args m l Hh Hch Hm Hp Hl) in Hconv.
    unfold finish, call, call_with in Hconv.
    destruct m; try discriminate Hp;
      try (injection Hconv as _ _ <-; by rewrite lookup_insert_ne).
    destruct (_ !! "model"); [discriminate|].
    injection Hconv as _ _ <-. by rewrite !lookup_insert_ne.
Qed.

Lemma X9_keywords_reach_the_form_field_witness :
  ({[ "widget" := VClass "TextArea"; "label" := VStr "name";
      "description" := VStr "Full name";
      "validators" := VList [VCall "Required" [] ∅;
                             VCall "Length" [] {[ "max" := VInt 50; "min" := VInt (-1) ]}];
      "filters" := VList []; "default" := VNone ]} : kwargs_t) !! "widget"
  = update_kwargs (base_kwargs (StringField (VStr "name") true VNone (VInt 50) VNone))
      (Some widget_args) !! "widget".
Proof.
  apply (X9_keywords_reach_the_form_field None Person
           (StringField (VStr "name") true VNone (VInt 50) VNone)
           (Some widget_args) conv_String_m [] "widget" "TextField" []).
  - reflexivity.
  - reflexivity.
  - right. split; [reflexivity|].
    split; [apply list_elem_of_singleton; reflexivity|reflexivity].
  - reflexivity.
  - intros H; discriminate H.
  - intros H; discriminate H.
  - intros H; discriminate H.
Defined.

Lemma dict_truthy_lookup {A : Type} (d : gmap string A) (k : string) (x : A) :
  d !! k = Some x → dict_truthy d = true.
Proof.
  intros Hk. unfold dict_truthy. apply negb_true_iff, bool_decide_eq_false.
  intros ->%map_size_empty_inv. by rewrite lookup_empty in Hk.
Qed.

(** X10.  When the field is required and the caller overrides [validators]
    with something that is not a list (a tuple, [None]), [convert] raises an
    attribute error at the append of the required validator, for every
    registry and every field class, before choices or class are looked
    at. *)
Theorem X10_required_needs_a_validator_list
    (converters : gmap string entry) (model : document) (field : mfield)
    (overrides : kwargs_t) (v : value) :
  required (attrs field) = true →
  overrides !! "validators" = Some v →
  (∀ l, v ≠ VList l) →
  convert converters model field (Some overrides) = Raise (AttributeError "append").
Proof.
  intros Hr Hv Hnot. rewrite convert_unfold. cbv zeta. rewrite Hr.
  unfold update_kwargs, append_validator.
  rewrite (dict_truthy_lookup _ _ _ Hv), (lookup_union_Some_l _ _ _ _ Hv).
  destruct v; try reflexivity. by destruct (Hnot l).
Qed.

Lemma X10_required_needs_a_validator_list_witness :
  convert (ModelConverter None) Person
    (StringField (VStr "name") true VNone (VInt 50) VNone) (Some tuple_validators)
  = Raise (AttributeError "append").
Proof.
  apply (X10_required_needs_a_validator_list _ _ _ _ (VTuple [VCall "Optional" [] ∅])).
  - reflexivity.
  - reflexivity.
  - intros l H; discriminate H.
Defined.

(** ** Composite fields *)

(** X11.  A list or sorted-list field without an element field (no choices,
    no hook) cannot be converted: [convert] raises an attribute error, since
    the element is converted by reading the attributes of [None]. *)
Theorem X11_list_without_element_raises
    (c : option (gmap string callable)) (model : document) (field : mfield)
    (field_args : option kwargs_t) :
  type_name (attrs field) = "ListField" ∨ type_name (attrs field) = "SortedListField" →
  inner_field field = None →
  to_form_field (attrs field) = None →
  truthy (choices (attrs field)) = false →
  validators_is_list (update_kwargs (base_kwargs field) field_args) = true →
  convert (ModelConverter c) model field field_args = Raise (AttributeError "name").
Proof.
  intros Ht Hin Hh Hch (l & Hl)%validators_is_list_spec.
  rewrite (convert_dispatch _ _ _ _ l) by done. cbv zeta. rewrite Hh.
  destruct Ht as [Ht|Ht]; rewrite Ht.
  - rewrite (ModelConverter_bound c conv_List_m "ListField")
      by (apply list_elem_of_singleton; reflexivity).
    cbn [call_converter]. rewrite conv_List_unfold, Hin. reflexivity.
  - rewrite (ModelConverter_bound c conv_SortedList_m "SortedListField")
      by (apply list_elem_of_singleton; reflexivity).
    cbn [call_converter]. unfold conv_SortedList.
    rewrite conv_List_unfold, Hin. reflexivity.
Qed.

Lemma X11_list_without_element_raises_witness :
  convert (ModelConverter None) Person (ListField (VStr "tags") false None) None
  = Raise (AttributeError "name").
Proof.
  apply X11_list_without_element_raises.
  - left. reflexivity.
  - reflexivity.
  - reflexivity.
  - reflexivity.
  - reflexivity.
Defined.

(** X12.  An embedded-document field (no choices, no hook) converts to a
    [FormField] with fresh empty validators and filters around the form class
    of the embedded schema: the class named after the schema with suffix
    Form, based on [ModelForm], whose attributes are the mapping
    [model_fields] builds for the embedded schema with no filter, no
    overrides and the default converter, plus [model_class].  Neither the
    caller's converters nor the overrides for the embedded field take part,
    and an error of the embedded walk is the error of [convert]. *)
Theorem X12_embedded_document_field
    (c : option (gmap string callable)) (model embedded : document) (field : mfield)
    (field_args : option kwargs_t) :
  type_name (attrs field) = "EmbeddedDocumentField" →
  document_type_obj field = Some embedded →
  to_form_field (attrs field) = None →
  truthy (choices (attrs field)) = false →
  validators_is_list (update_kwargs (base_kwargs field) field_args) = true →
  convert (ModelConverter c) model field field_args
  = (field_dict ←! model_fields embedded None None None None;
     Ok (VCall "FormField"
           [VType (__name__ embedded +:+ "Form") [ModelForm]
                  (<["model_class" := class_value embedded]> field_dict)]
           {[ "validators" := VList []; "filters" := VList [] ]})).
Proof.
  intros Ht Hdoc Hh Hch (l & Hl)%validators_is_list_spec.
  rewrite (convert_dispatch _ _ _ _ l) by done. cbv zeta. rewrite Hh, Ht.
  rewrite (ModelConverter_bound c conv_EmbeddedDocument_m "EmbeddedDocumentField")
    by (apply list_elem_of_singleton; reflexivity).
  cbn [call_converter]. unfold conv_EmbeddedDocument, model_form, call, form_type.
  rewrite Hdoc.
  assert (model_fields embedded None None (Some ∅) None
          = model_fields embedded None None None None) as ->
    by (by rewrite !model_fields_unfold).
  by destruct (model_fields embedded None None None None).
Qed.

Lemma X12_embedded_document_field_witness :
  convert (ModelConverter (Some point_converters)) Person address_field None
  = Ok (VCall "FormField"
          [VType "AddressForm" [ModelForm]
             {[ "model_class" := VClass "Address";
                "city" := VCall "TextField" []
                            {[ "label" := VStr "city"; "description" := VStr "";
                               "validators" := VList []; "filters" := VList [];
                               "default" := VNone ]} ]}]
          {[ "validators" := VList []; "filters" := VList [] ]}).
Proof.
  rewrite (X12_embedded_document_field (Some point_converters) Person Address
             address_field None); reflexivity.
Defined.


(** ** The schema walk *)

Lemma select_names_exclude (only exclude : option (list string)) (names : list string)
    (n : string) :
  names_truthy only = false →
  (n ∈ select_names only exclude names ↔ n ∈ names ∧ n ∉ names_of exclude).
Proof.
  intros Ho. unfold select_names. rewrite Ho.
  destruct exclude as [[|x ex]|]; cbn [names_truthy names_of].
  - split; [intros ?; split; [done|apply not_elem_of_nil]|tauto].
  - rewrite list_elem_of_filter. tauto.
  - split; [intros ?; split; [done|apply not_elem_of_nil]|tauto].
Qed.

(** X13.  Without an [only] (absent or empty), the keys of the mapping
    [model_fields] returns are exactly the schema's field names that are not
    in [exclude] and convert to something; with no [exclude] either, all
    field names that convert to something. *)
Theorem X13_exclude_removes_names model (only exclude : option (list string))
    field_args converter (fd : kwargs_t) (n : string) :
  names_truthy only = false →
  model_fields model only exclude field_args converter = Ok fd →
  (n ∈ dom fd ↔
     n ∈ field_names_of model ∧ (n ∉ names_of exclude) ∧
     ∃ v, convert_named (converter_or_default converter) model
            (field_args_or_empty field_args) n = Ok v ∧ v ≠ VNone).
Proof.
  intros Ho. rewrite model_fields_unfold. destruct (negb _); [discriminate|].
  intros Hfd. destruct (collect_Ok_lookup _ _ _ _ n Hfd) as [Hin Hout].
  rewrite elem_of_dom. split.
  - intros Hsome.
    destruct (decide (n ∈ select_names only exclude (field_names_of model))) as [Hn|Hn].
    + destruct (Hin Hn) as (v & Hv & Hlook).
      apply (select_names_exclude _ _ _ _ Ho) in Hn as [Hf He].
      split; [done|]. split; [done|]. exists v. split; [done|].
      apply is_not_None_true. destruct (is_not_None v); [done|].
      rewrite Hlook, lookup_empty in Hsome. by destruct Hsome.
    + rewrite (Hout Hn), lookup_empty in Hsome. by destruct Hsome.
  - intros (Hf & He & v & Hv & Hnn).
    destruct Hin as (v' & Hv' & Hlook); [by apply select_names_exclude|].
    rewrite Hv in Hv'. injection Hv' as <-.
    apply is_not_None_true in Hnn. rewrite Hnn in Hlook. by rewrite Hlook.
Qed.

Lemma X13_exclude_removes_names_witness :
  "age" ∈ dom ({[ "age" := Person_age_field; "tags" := Person_tags_field ]} : kwargs_t) ↔
    "age" ∈ field_names_of Person ∧ ("age" ∉ names_of (Some ["name"])) ∧
    ∃ v, convert_named (converter_or_default None) Person
           (field_args_or_empty None) "age" = Ok v ∧ v ≠ VNone.
Proof.
  apply (X13_exclude_removes_names Person None (Some ["name"]) None None); reflexivity.
Defined.

(** X14.  Every entry of the mapping [model_fields] returns is the
    conversion of the schema field registered under the same name, with the
    overrides given for that name; the name is one of the schema's field
    names, and the entry is never [None]. *)
Theorem X14_entries_are_conversions model (only exclude : option (list string))
    field_args converter (fd : kwargs_t) (n : string) (v : value) :
  model_fields model only exclude field_args converter = Ok fd →
  fd !! n = Some v →
  v ≠ VNone ∧ n ∈ field_names_of model ∧
  ∃ model_field,
    _fields model !! n = Some model_field ∧
    convert (converter_or_default converter) model model_field
      (field_args_or_empty field_args !! n) = Ok v.
Proof.
  rewrite model_fields_unfold. destruct (negb _); [discriminate|].
  intros Hfd Hn. destruct (collect_Ok_lookup _ _ _ _ n Hfd) as [Hin Hout].
  destruct (decide (n ∈ select_names only exclude (field_names_of model))) as [Hs|Hs];
    [|by rewrite (Hout Hs), lookup_empty in Hn].
  destruct (Hin Hs) as (v' & Hv' & Hlook). rewrite Hlook in Hn.
  destruct (is_not_None v') eqn:Hnn; [|by rewrite lookup_empty in Hn].
  injection Hn as ->. apply is_not_None_true in Hnn.
  split; [done|]. split; [by apply select_names_subseteq in Hs|].
  unfold convert_named in Hv'.
  destruct (_fields model !! n) as [model_field|]; [|discriminate]. eauto.
Qed.

Lemma X14_entries_are_conversions_witness :
  Person_age_field ≠ VNone ∧ "age" ∈ field_names_of Person ∧
  ∃ model_field,
    _fields Person !! "age" = Some model_field ∧
    convert (converter_or_default None) Person model_field
      (field_args_or_empty None !! "age") = Ok Person_age_field.
Proof.
  apply (X14_entries_are_conversions Person None None None None Person_fields);
    reflexivity.
Defined.

(** X15.  [model_fields] reads from [field_args] only the entries keyed by
    the schema's own field names: overrides given for any other name have no
    effect on the result. *)
Theorem X15_overrides_for_other_names_are_ignored model (only exclude : option (list string))
    (field_args field_args' : option (gmap string kwargs_t)) converter :
  (∀ n, is_Some (_fields model !! n) →
        field_args_or_empty field_args !! n = field_args_or_empty field_args' !! n) →
  model_fields model only exclude field_args converter
  = model_fields model only exclude field_args' converter.
Proof.
  intros Hsame. rewrite !model_fields_unfold. destruct (negb _); [done|].
  apply collect_ext. intros n _. unfold convert_named.
  destruct (_fields model !! n) as [model_field|] eqn:Hn; [|done].
  by rewrite Hsame.
Qed.

Lemma X15_overrides_for_other_names_are_ignored_witness :
  model_fields Person None None (Some model_override) None
  = model_fields Person None None None None.
Proof.
  apply X15_overrides_for_other_names_are_ignored.
  intros n Hn. unfold field_args_or_empty, model_override.
  cbn [dict_truthy]. rewrite lookup_empty.
  destruct (decide (n = "author")) as [->|Hne].
  - vm_compute in Hn. by destruct Hn as [? [=]].
  - change (dict_truthy _) with true. cbv iota.
    by rewrite lookup_singleton_ne.
Defined.

(** The loop stops at the first name whose conversion raises. *)
Lemma collect_raise f (pre post : list string) (n : string) (e : exn) (acc : kwargs_t) :
  (∀ k, k ∈ pre → ∃ v, f k = Ok v) →
  f n = Raise e →
  collect f (pre ++ n :: post)%list acc = Raise e.
Proof.
  revert acc. induction pre as [|x pre IH]; intros acc Hpre Hn; simpl.
  - by rewrite Hn.
  - destruct (Hpre x) as [v ->]; [by left|]. rewrite bind_Ok.
    apply IH; [|done]. intros k Hk. apply Hpre. by right.
Qed.

(** X16.  [model_fields] fails fast: if the names selected for conversion
    are [pre], then [n], then [post], every name of [pre] converts and the
    lookup or conversion for [n] raises, then [model_fields] raises that same
    exception and returns no partial mapping.  In particular a selected name
    missing from the schema's field table raises a key error for it. *)
Theorem X16_model_fields_fails_fast model (only exclude : option (list string))
    field_args converter (pre post : list string) (n : string) (e : exn) :
  is_document model = true →
  select_names only exclude (field_names_of model) = (pre ++ n :: post)%list →
  (∀ k, k ∈ pre →
     ∃ v, convert_named (converter_or_default converter) model
            (field_args_or_empty field_args) k = Ok v) →
  (_fields model !! n = None ∧ e = KeyError n) ∨
  (∃ model_field,
     _fields model !! n = Some model_field ∧
     convert (converter_or_default converter) model model_field
       (field_args_or_empty field_args !! n) = Raise e) →
  model_fields model only exclude field_args converter = Raise e.
Proof.
  intros Hdoc Hsel Hpre Hn. rewrite model_fields_unfold, Hdoc, Hsel. cbn [negb].
  apply collect_raise; [done|]. unfold convert_named.
  destruct Hn as [[-> ->]|(model_field & -> & Hraise)]; done.
Qed.

Lemma X16_model_fields_fails_fast_witness :
  model_fields Broken None None None None = Raise (KeyError "ghost").
Proof.
  apply (X16_model_fields_fails_fast Broken None None None None [] ["city"] "ghost").
  - reflexivity.
  - reflexivity.
  - intros k Hk. by apply elem_of_nil in Hk.
  - left. split; reflexivity.
Defined.



(** X18.  [model_form] returns the class named after the schema with suffix
    Form, with the given base class as its only base; its attributes are the
    mapping of [model_fields] with [model_class] set to the schema, so a
    schema field that is itself named [model_class] is replaced by the
    schema.  If [model_fields] raises, [model_form] raises the same
    exception. *)
Theorem X18_model_form_class model (base_class : value)
    (only exclude : option (list string)) field_args converter :
  (∀ fd, model_fields model only exclude field_args converter = Ok fd →
     ∃ attrs,
       model_form model base_class only exclude field_args converter
         = Ok (VType (__name__ model +:+ "Form") [base_class] attrs) ∧
       attrs !! "model_class" = Some (class_value model) ∧
       ∀ n, n ≠ "model_class" → attrs !! n = fd !! n) ∧
  (∀ e, model_fields model only exclude field_args converter = Raise e →
     model_form model base_class only exclude field_args converter = Raise e).
Proof.
  unfold model_form, form_type. split.
  - intros fd ->. eexists. split; [reflexivity|].
    split; [apply lookup_insert_eq|]. intros n Hn. by rewrite lookup_insert_ne.
  - by intros e ->.
Qed.

Lemma X18_model_form_class_witness :
  ∃ attrs,
    model_form Person ModelForm None None None None
      = Ok (VType "PersonForm" [ModelForm] attrs) ∧
    attrs !! "model_class" = Some (VClass "Person") ∧
    ∀ n, n ≠ "model_class" → attrs !! n = Person_fields !! n.
Proof.
  apply (proj1 (X18_model_form_class Person ModelForm None None None None)).
  reflexivity.
Defined.


Ltac bind_inv H :=
  repeat (let x := fresh "x" in let Hx := fresh "Hx" in
          apply bind_Ok_inv in H as (x & Hx & H); cbv beta in H).

Ltac in_form_classes :=
  unfold form_classes; apply list_elem_of_In; simpl;
  repeat (first [left; reflexivity | right]).

(** X19.  With the default converter and no self-conversion hook, whatever
    [convert] returns is either nothing or a form field of one of the eleven
    classes the module names; a field is never converted to anything else. *)
Theorem X19_only_known_form_classes
    (model : document) (field : mfield) (field_args : option kwargs_t) (v : value) :
  to_form_field (attrs field) = None →
  convert (ModelConverter None) model field field_args = Ok v →
  v = VNone ∨ ∃ cls args kwargs, v = VCall cls args kwargs ∧ cls ∈ form_classes.
Proof.
  intros Hh. rewrite convert_unfold. cbv zeta.
  intros (kwargs & _ & H)%bind_Ok_inv. revert H. rewrite Hh.
  destruct (truthy (choices (attrs field))).
  { intros [= <-]. right. do 3 eexists. split; [reflexivity|in_form_classes]. }
  destruct (decide (type_name (attrs field) ∈ default_names)) as [Hin|Hout].
  - apply default_names_method in Hin as [m Hm].
    rewrite (ModelConverter_bound None m _ Hm). intros H.
    destruct m; cbn [call_converter] in H;
      unfold conv_Binary, conv_Boolean, conv_DateTime, conv_Decimal, conv_Dict,
        conv_Email, conv_EmbeddedDocument, conv_Float, conv_GenericReference,
        conv_GeoLocation, conv_Int, conv_SortedList, conv_ObjectId, conv_Reference,
        conv_String, conv_URL in H;
      rewrite ?conv_List_unfold in H;
      bind_inv H; unfold call, call_with in H;
      repeat match type of H with
             | context [match ?x with _ => _ end] => destruct x
             end;
      try discriminate H; injection H as <-;
      first [ by left
            | right; do 3 eexists; split; [reflexivity|in_form_classes] ].
  - rewrite (ModelConverter_lookup_other None _ Hout). cbn [from_option id].
    rewrite lookup_empty. intros [= <-]. by left.
Qed.

Lemma X19_only_known_form_classes_witness :
  Person_tags_field = VNone ∨
  ∃ cls args kwargs, Person_tags_field = VCall cls args kwargs ∧ cls ∈ form_classes.
Proof.
  apply (X19_only_known_form_classes Person
           (ListField (VStr "tags") false
              (Some (StringField VNone false VNone VNone VNone))) None);
    reflexivity.
Defined.
